(** * nvidia-proxy: the OpenAI-to-NIM request translator of [src/server.js]

  A shallow embedding of the Express application of [src/server.js]
  (authentication middleware, the four routes, the outbound call and the
  reshaping of its answer) together with the fragment of JavaScript the
  file relies on: dynamically typed JSON values, truthiness, [||], [?.],
  string [+], [startsWith] and [replace]. *)

From Stdlib Require Import ZArith String List Ascii Bool Lia DecimalString.
From Stdlib Require Import Floats.PrimFloat.
From Stdlib Require Import Uint63.
Import ListNotations.

#[local] Set Warnings "-inexact-float,-register-all".
#[local] Open Scope string_scope.

(** ** JavaScript strings *)

Module JsString.

(** The two-character separator written ['\n\n'] in the source. *)
Definition nl : string := String (ascii_of_nat 10) EmptyString.
Definition blank_line : string := nl ++ nl.

(** [s.startsWith(p)] *)
Definition startsWith (s p : string) : bool := String.prefix p s.

(** Drop the first [n] characters. *)
Fixpoint drop (n : nat) (s : string) : string :=
  match n, s with
  | O, _ => s
  | S _, EmptyString => EmptyString
  | S n', String _ s' => drop n' s'
  end.

(** [s.replace(pat, rep)] for a string pattern: only the first (leftmost)
    occurrence of [pat] is replaced.  The replacement strings used by the
    program contain no [$], so no substitution pattern is involved. *)
Fixpoint replace (pat rep s : string) : string :=
  if String.prefix pat s then rep ++ drop (String.length pat) s
  else match s with
       | EmptyString => EmptyString
       | String c s' => String c (replace pat rep s')
       end.

(** ASCII case folding, as a regular expression with the [i] flag compares
    characters (a character outside ASCII never folds to an ASCII one). *)
Definition lower_ascii (c : ascii) : ascii :=
  let n := nat_of_ascii c in
  if (65 <=? n)%nat && (n <=? 90)%nat then ascii_of_nat (n + 32) else c.

Fixpoint toLowerCase (s : string) : string :=
  match s with
  | EmptyString => EmptyString
  | String c s' => String (lower_ascii c) (toLowerCase s')
  end.

(** [s.toUpperCase()] on ASCII letters, which is all a request method has. *)
Definition upper_ascii (c : ascii) : ascii :=
  let n := nat_of_ascii c in
  if (97 <=? n)%nat && (n <=? 122)%nat then ascii_of_nat (n - 32) else c.

Fixpoint toUpperCase (s : string) : string :=
  match s with
  | EmptyString => EmptyString
  | String c s' => String (upper_ascii c) (toUpperCase s')
  end.

(** [s] occurs somewhere inside [t]. *)
Definition includes (t s : string) : Prop :=
  exists pre post, t = pre ++ s ++ post.

End JsString.

(** ** JavaScript values *)

Module Js.

(** The values the program handles: what [JSON.parse] yields, [undefined],
    and the readable stream axios hands back for [responseType: 'stream']
    (a host object, seen here as the chunks it will emit). *)
Inductive value : Type :=
| undefined
| null
| boolean (b : bool)
| number (x : float)
| str (s : string)
| array (elements : list value)
| object (properties : list (string * value))
| stream (chunks : list string).

(** Completion of an expression: a result, or a thrown value. *)
Inductive completion (A : Type) : Type :=
| Normal (a : A)
| Throw (e : value).
Arguments Normal {A} a.
Arguments Throw {A} e.

Definition bind {A B} (c : completion A) (k : A -> completion B) : completion B :=
  match c with
  | Normal a => k a
  | Throw e => Throw e
  end.

(** An [Error] instance as the program observes it: its [message]. The
    texts of the engine's own [TypeError]s below are V8's. *)
Definition TypeError (message : string) : value :=
  object [("message", str message)].

(** ToBoolean *)
Definition truthy (v : value) : bool :=
  match v with
  | undefined | null => false
  | boolean b => b
  | number x => negb (PrimFloat.eqb x 0 || PrimFloat.is_nan x)
  | str s => negb (String.eqb s "")
  | array _ | object _ | stream _ => true
  end.

(** [a || b] *)
Definition or (a b : value) : value := if truthy a then a else b.

(** Own property of an object literal or parsed JSON object. *)
Fixpoint lookup (k : string) (ps : list (string * value)) : value :=
  match ps with
  | [] => undefined
  | (k', v) :: ps' => if String.eqb k k' then v else lookup k ps'
  end.

(** [v?.k] for the property names the program reads ([message],
    [content], [reasoning_content], [role], [index], [finish_reason],
    [choices], [usage], [data], [status], [error], [response]): none of
    them is defined on a prototype, so only objects answer. *)
Definition optget (v : value) (k : string) : value :=
  match v with
  | object ps => lookup k ps
  | _ => undefined
  end.

(** [v.k]: as [v?.k], but reading a property of [undefined] or [null]
    throws. *)
Definition get (v : value) (k : string) : completion value :=
  match v with
  | undefined =>
      Throw (TypeError ("Cannot read properties of undefined (reading '" ++ k ++ "')"))
  | null =>
      Throw (TypeError ("Cannot read properties of null (reading '" ++ k ++ "')"))
  | _ => Normal (optget v k)
  end.

(** [a === b] between a string and an environment variable, which is a
    string or [undefined] ([None]). *)
Definition strict_eq_str (a : string) (b : option string) : bool :=
  match b with
  | Some s => String.eqb a s
  | None => false
  end.

Definition has_own (k : string) (ps : list (string * value)) : bool :=
  existsb (fun p => String.eqb k (fst p)) ps.

Section Conversions.

(** Number::toString, left to the engine. *)
Variable number_to_string : float -> string.

(** ToString (of ToPrimitive). A parsed JSON object converts through
    [Object.prototype.toString] unless it has an own [toString]
    property, which, not being callable, leaves no conversion; an array
    converts through [join]. *)
Fixpoint to_string (v : value) : completion string :=
  match v with
  | undefined => Normal "undefined"
  | null => Normal "null"
  | boolean true => Normal "true"
  | boolean false => Normal "false"
  | number x => Normal (number_to_string x)
  | str s => Normal s
  | array l =>
      (fix join (l : list value) : completion string :=
         match l with
         | [] => Normal ""
         | x :: rest =>
             bind (match x with
                   | undefined | null => Normal ""
                   | _ => to_string x
                   end)
               (fun sx =>
                  match rest with
                  | [] => Normal sx
                  | _ :: _ => bind (join rest) (fun sr => Normal (sx ++ "," ++ sr))
                  end)
         end) l
  | object ps =>
      if has_own "toString" ps
      then Throw (TypeError "Cannot convert object to primitive value")
      else Normal "[object Object]"
  | stream _ => Normal "[object Object]"
  end.

(** ToNumber of a primitive other than a string. *)
Definition to_number (v : value) : float :=
  match v with
  | null | boolean false => 0
  | boolean true => 1
  | number x => x
  | _ => PrimFloat.nan
  end.

Definition is_numeric_primitive (v : value) : bool :=
  match v with
  | undefined | null | boolean _ | number _ => true
  | _ => false
  end.

(** [a + b]: numeric addition when neither operand converts to a string,
    concatenation otherwise. *)
Definition add (a b : value) : completion value :=
  if is_numeric_primitive a && is_numeric_primitive b
  then Normal (number (PrimFloat.add (to_number a) (to_number b)))
  else bind (to_string a) (fun sa =>
       bind (to_string b) (fun sb => Normal (str (sa ++ sb)))).

End Conversions.

(** An integral Number (exact up to 2^53 in magnitude, which covers every
    time value). *)
Definition of_Z (z : Z) : float :=
  if (0 <=? z)%Z then PrimFloat.of_uint63 (Uint63.of_Z z)
  else PrimFloat.opp (PrimFloat.of_uint63 (Uint63.of_Z (- z))).

(** ToString of an integral Number below 10^21: its decimal digits. *)
Definition string_of_Z (z : Z) : string := NilZero.string_of_int (Z.to_int z).

End Js.

Declare Scope js_scope.
Delimit Scope js_scope with js.
Notation "x <- c ;; k" := (Js.bind c (fun x => k))
  (at level 61, c at next level, right associativity) : js_scope.

(** ** Express: requests, responses, handlers *)

Module Express.

(** A request: [method] is [req.method], [authorization] is
    [req.headers.authorization] (a string, or absent), and [body] holds the
    own properties of [req.body] as [express.json()] (line 10) parsed it,
    which the body parser of Express 4 leaves an object, [{}] when the
    request carried no JSON. *)
Record Request : Type := {
  method : string;
  path : string;
  authorization : option string;
  body : list (string * Js.value)
}.

Inductive Body : Type :=
| NoBody
| JsonBody (v : Js.value)
| StreamBody (chunks : list string)
| EmptyBody.

(** What the handlers made of [res]: the status code, the headers the
    application's own handlers set through [res.setHeader], and what was
    sent ([NoBody] while nothing was, [EmptyBody] for a response ended
    without content). *)
Record Response : Type := {
  statusCode : Js.value;
  headers : list (string * string);
  sent : Body
}.

(** One call of [axios.post(url, data, {headers, responseType})]. *)
Record AxiosCall : Type := {
  url : string;
  data : Js.value;
  config_headers : list (string * string);
  responseType : string
}.

(** The promise [axios.post] returns, once settled. *)
Inductive Settled : Type :=
| Fulfilled (response : Js.value)
| Rejected (error : Js.value).

(** Everything outside the program: the environment variables, the clock
    (its successive readings while one request is handled), the upstream
    behind axios, and the engine's number formatting. *)
Record World : Type := {
  process_env : string -> option string;
  clock : nat -> Z;
  upstream : AxiosCall -> Settled;
  number_to_string : float -> string
}.

Record State : Type := {
  res : Response;
  ticks : nat;
  outbound : list AxiosCall
}.

(** Handler code: threads the state, may throw. *)
Definition M (A : Type) : Type := State -> Js.completion A * State.

Definition ret {A} (a : A) : M A := fun st => (Js.Normal a, st).

Definition bind {A B} (c : M A) (k : A -> M B) : M B :=
  fun st =>
    match c st with
    | (Js.Normal a, st') => k a st'
    | (Js.Throw e, st') => (Js.Throw e, st')
    end.

Definition throw {A} (e : Js.value) : M A := fun st => (Js.Throw e, st).

Definition lift {A} (c : Js.completion A) : M A := fun st => (c, st).

(** [try { body } catch (error) { handler }] *)
Definition try_catch {A} (body : M A) (handler : Js.value -> M A) : M A :=
  fun st =>
    match body st with
    | (Js.Normal a, st') => (Js.Normal a, st')
    | (Js.Throw e, st') => handler e st'
    end.

Declare Scope handler_scope.
Delimit Scope handler_scope with handler.
Notation "x <- c ;; k" := (bind c (fun x => k))
  (at level 61, c at next level, right associativity) : handler_scope.
Notation "c ;; k" := (bind c (fun _ => k))
  (at level 61, right associativity) : handler_scope.

Definition with_res (f : Response -> Response) : M unit :=
  fun st => (Js.Normal tt,
             {| res := f (res st); ticks := ticks st; outbound := outbound st |}).

(** [res.status(code)] *)
Definition res_status (code : Js.value) : M unit :=
  with_res (fun r => {| statusCode := code; headers := headers r; sent := sent r |}).

Definition same_header (a b : string) : bool :=
  String.eqb (JsString.toLowerCase a) (JsString.toLowerCase b).

(** [res.setHeader(name, value)]: header names compare without case, a
    second value for a name replaces the first. *)
Definition res_setHeader (name value : string) : M unit :=
  with_res (fun r =>
    {| statusCode := statusCode r;
       headers := filter (fun h => negb (same_header name (fst h))) (headers r)
                    ++ [(name, value)];
       sent := sent r |}).

(** [res.json(v)]: the body goes out under the current status.  Node
    writes the response head only for a status from 100 to 999 and throws
    for any other; the statuses the application sets itself (401, 404, 500
    and the default 200) are of that kind, and where it relays an upstream
    status the properties assume that status is too. *)
Definition res_json (v : Js.value) : M unit :=
  with_res (fun r => {| statusCode := statusCode r; headers := headers r; sent := JsonBody v |}).

(** [res.end()]: the response goes out with no body. *)
Definition res_end : M unit :=
  with_res (fun r => {| statusCode := statusCode r; headers := headers r; sent := EmptyBody |}).

(** [source.pipe(res)]: every chunk of the source is written to the response
    in order, then the response ends.  Only a stream has a [pipe] method. *)
Definition pipe (what : string) (source : Js.value) : M unit :=
  match source with
  | Js.stream chunks =>
      with_res (fun r =>
        {| statusCode := statusCode r; headers := headers r; sent := StreamBody chunks |})
  | Js.undefined =>
      throw (Js.TypeError "Cannot read properties of undefined (reading 'pipe')")
  | Js.null =>
      throw (Js.TypeError "Cannot read properties of null (reading 'pipe')")
  | _ => throw (Js.TypeError (what ++ ".pipe is not a function"))
  end.

(** [xs.map(f)]: only an array has a [map] method. *)
Fixpoint mapM {A B} (f : A -> Js.completion B) (l : list A) : Js.completion (list B) :=
  match l with
  | [] => Js.Normal []
  | x :: l' =>
      Js.bind (f x) (fun y => Js.bind (mapM f l') (fun ys => Js.Normal (y :: ys)))
  end.

Definition array_map (what : string) (f : Js.value -> Js.completion Js.value)
  (xs : Js.value) : Js.completion Js.value :=
  match xs with
  | Js.array l => Js.bind (mapM f l) (fun ys => Js.Normal (Js.array ys))
  | Js.undefined =>
      Js.Throw (Js.TypeError "Cannot read properties of undefined (reading 'map')")
  | Js.null =>
      Js.Throw (Js.TypeError "Cannot read properties of null (reading 'map')")
  | _ => Js.Throw (Js.TypeError (what ++ ".map is not a function"))
  end.

(** Route matching of Express 4 with its default settings: the path is
    compared without case, and one trailing slash is allowed (for
    ['/health'] the compiled pattern is [/^\/health\/?$/i]). *)
Definition path_matches (route p : string) : bool :=
  let r := JsString.toLowerCase route in
  let q := JsString.toLowerCase p in
  String.eqb q r || String.eqb q (r ++ "/").

(** Which request methods a route registered with [app.get] or [app.post]
    answers: [get] routes answer [HEAD] too. *)
Definition get_handles (m : string) : bool := String.eqb m "GET" || String.eqb m "HEAD".
Definition post_handles (m : string) : bool := String.eqb m "POST".

Definition initial : State :=
  {| res := {| statusCode := Js.number 200; headers := []; sent := NoBody |};
     ticks := 0;
     outbound := [] |}.

End Express.

(** ** The application of [src/server.js] *)

Module Server.
Import Express.
#[local] Open Scope handler_scope.

Section App.

Variable W : World.

(** [x || d] for an environment variable [x]. *)
Definition env_or (x : option string) (d : string) : string :=
  match x with
  | Some s => if String.eqb s "" then d else s
  | None => d
  end.

(** An environment variable inside a template literal. *)
Definition env_text (x : option string) : string :=
  match x with
  | Some s => s
  | None => "undefined"
  end.

(** Lines 13-15. *)
Definition NIM_API_BASE : string :=
  env_or (process_env W "NIM_API_BASE") "https://integrate.api.nvidia.com/v1".
Definition NIM_API_KEY : option string := process_env W "NIM_API_KEY".
Definition PROXY_SECRET : option string := process_env W "PROXY_SECRET".

(** [Date.now()]: the next reading of the clock, in milliseconds. *)
Definition Date_now : M Z :=
  fun st => (Js.Normal (clock W (ticks st)),
             {| res := res st; ticks := S (ticks st); outbound := outbound st |}).

(** [await axios.post(...)]: the call goes out and, once its promise has
    settled, yields the response or throws the rejection.  A promise that
    never settles leaves the handler waiting for ever: that case is not
    represented. *)
Definition axios_post (call : AxiosCall) : M Js.value :=
  fun st =>
    let st' := {| res := res st; ticks := ticks st; outbound := outbound st ++ [call] |} in
    match upstream W call with
    | Fulfilled response => (Js.Normal response, st')
    | Rejected error => (Js.Throw error, st')
    end.

Definition auth_error (message : string) : Js.value :=
  Js.object [("error", Js.object [("message", Js.str message);
                                  ("type", Js.str "authentication_error")])].

Definition reject (message : string) : M unit :=
  res_status (Js.number 401) ;;
  res_json (auth_error message).

(** Lines 18-47: the authentication middleware.  A missing header is
    [undefined], which [!authHeader] rejects like the empty string. *)
Definition authenticate (req : Request) (next : M unit) : M unit :=
  if String.eqb (path req) "/health" then next
  else
    match authorization req with
    | None => reject "Unauthorized: Missing API key"
    | Some authHeader =>
        if String.eqb authHeader "" || negb (JsString.startsWith authHeader "Bearer ")
        then reject "Unauthorized: Missing API key"
        else
          let providedKey := JsString.replace "Bearer " "" authHeader in
          if negb (Js.strict_eq_str providedKey PROXY_SECRET)
          then reject "Unauthorized: Invalid API key"
          else next
    end.

(** Lines 50-56. *)
Definition health_body : Js.value :=
  Js.object [("status", Js.str "ok");
             ("service", Js.str "OpenAI to NVIDIA NIM Proxy");
             ("authenticated", Js.boolean true)].

Definition health : M unit := res_json health_body.

(** Lines 59-65. *)
Definition model_entry (id : string) (created : Z) : Js.value :=
  Js.object [("id", Js.str id); ("object", Js.str "model");
             ("created", Js.number (Js.of_Z created));
             ("owned_by", Js.str "nvidia-nim-proxy")].

Definition models : M unit :=
  t1 <- Date_now ;;
  t2 <- Date_now ;;
  res_json (Js.object [("object", Js.str "list");
                       ("data", Js.array [model_entry "gpt-4o" t1; model_entry "gpt-4" t2])]).

(** Lines 73-81: the payload sent upstream. *)
Definition nimModel : string := "z-ai/glm4.7".

Definition nimRequest (messages temperature max_tokens stream : Js.value) : Js.value :=
  Js.object [("model", Js.str nimModel);
             ("messages", messages);
             ("temperature", Js.or temperature (Js.number 0.7));
             ("max_tokens", Js.or max_tokens (Js.number 2048));
             ("stream", Js.or stream (Js.boolean false))].

(** Lines 103-119: the callback of [choices.map].  [choice.message] is read
    once here; the source reads it again at each use, with the same result. *)
Definition translate_choice (choice : Js.value) : Js.completion Js.value :=
  (message <- Js.get choice "message" ;;
   let content := Js.or (Js.optget message "content") (Js.str "") in
   content <-
     (if Js.truthy (Js.optget message "reasoning_content") then
        rest <- (if Js.truthy content
                 then Js.add (number_to_string W) (Js.str JsString.blank_line) content
                 else Js.Normal (Js.str "")) ;;
        Js.add (number_to_string W) (Js.optget message "reasoning_content") rest
      else Js.Normal content) ;;
   role <- Js.get message "role" ;;
   Js.Normal (Js.object [("index", Js.optget choice "index");
                         ("message", Js.object [("role", role); ("content", content)]);
                         ("finish_reason", Js.optget choice "finish_reason")]))%js.

Definition zero_usage : Js.value :=
  Js.object [("prompt_tokens", Js.number 0);
             ("completion_tokens", Js.number 0);
             ("total_tokens", Js.number 0)].

(** Lines 98-125: the envelope, its fields evaluated in order. *)
Definition openaiResponse (model response : Js.value) : M Js.value :=
  t1 <- Date_now ;;
  t2 <- Date_now ;;
  data <- lift (Js.get response "data") ;;
  choices <- lift (Js.get data "choices") ;;
  choices <- lift (array_map "response.data.choices" translate_choice choices) ;;
  ret (Js.object [("id", Js.str ("chatcmpl-" ++ Js.string_of_Z t1));
                  ("object", Js.str "chat.completion");
                  ("created", Js.number (Js.of_Z (t2 / 1000)));
                  ("model", model);
                  ("choices", choices);
                  ("usage", Js.or (Js.optget data "usage") zero_usage)]).

Definition chat_call (req : Request) : AxiosCall :=
  let stream := Js.lookup "stream" (body req) in
  {| url := NIM_API_BASE ++ "/chat/completions";
     data := nimRequest (Js.lookup "messages" (body req))
               (Js.lookup "temperature" (body req))
               (Js.lookup "max_tokens" (body req)) stream;
     config_headers := [("Authorization", "Bearer " ++ env_text NIM_API_KEY);
                        ("Content-Type", "application/json")];
     responseType := if Js.truthy stream then "stream" else "json" |}.

(** Lines 70-128: the [try] block. *)
Definition chat_try (req : Request) : M unit :=
  let model := Js.lookup "model" (body req) in
  let stream := Js.lookup "stream" (body req) in
  response <- axios_post (chat_call req) ;;
  if Js.truthy stream then
    res_setHeader "Content-Type" "text/event-stream" ;;
    res_setHeader "Cache-Control" "no-cache" ;;
    res_setHeader "Connection" "keep-alive" ;;
    data <- lift (Js.get response "data") ;;
    pipe "response.data" data
  else
    envelope <- openaiResponse model response ;;
    res_json envelope.

(** Lines 130-139: the [catch] block.  [console.error] reads
    [error.message] first. *)
Definition chat_error (status message : Js.value) : Js.value :=
  Js.object [("error", Js.object [("message", message);
                                  ("type", Js.str "invalid_request_error");
                                  ("code", status)])].

Definition chat_catch (error : Js.value) : M unit :=
  local_text <- lift (Js.get error "message") ;;
  let response := Js.optget error "response" in
  let status := Js.or (Js.optget response "status") (Js.number 500) in
  let upstream_text := Js.optget (Js.optget (Js.optget response "data") "error") "message" in
  res_status status ;;
  res_json (chat_error status
              (Js.or (Js.or upstream_text local_text) (Js.str "Internal server error"))).

Definition chat (req : Request) : M unit := try_catch (chat_try req) chat_catch.

(** Lines 143-151. *)
Definition not_found_body (p : string) : Js.value :=
  Js.object [("error", Js.object [("message", Js.str ("Endpoint " ++ p ++ " not found"));
                                  ("type", Js.str "invalid_request_error");
                                  ("code", Js.number 404)])].

Definition catch_all (req : Request) : M unit :=
  res_status (Js.number 404) ;;
  res_json (not_found_body (path req)).

(** The routes, tried in the order they are registered. *)
Definition is_health (req : Request) : bool :=
  get_handles (method req) && path_matches "/health" (path req).
Definition is_models (req : Request) : bool :=
  get_handles (method req) && path_matches "/v1/models" (path req).
Definition is_chat (req : Request) : bool :=
  post_handles (method req) && path_matches "/v1/chat/completions" (path req).

Definition routes (req : Request) : M unit :=
  if is_health req then health
  else if is_models req then models
  else if is_chat req then chat req
  else catch_all req.

(** Line 9: [cors()] with the defaults of the package.  An OPTIONS request
    is taken for a preflight and answered on the spot, with status 204 and
    no body, so that nothing registered after line 9 sees it; any other
    request is passed on.  The CORS headers the package adds are not
    recorded. *)
Definition is_preflight (req : Request) : bool :=
  String.eqb (JsString.toUpperCase (method req)) "OPTIONS".

Definition cors (req : Request) (next : M unit) : M unit :=
  if is_preflight req then
    res_status (Js.number 204) ;;
    res_end
  else next.

(** Lines 9-151: the middleware chain, in the order of registration. *)
Definition app (req : Request) : M unit :=
  cors req (authenticate req (routes req)).

(** Serving one request: how the handler completed, the response it left,
    and the calls it made upstream. *)
Definition serve (req : Request) : Js.completion unit * State := app req initial.
Definition response_to (req : Request) : Response := res (snd (serve req)).
Definition calls_of (req : Request) : list AxiosCall := outbound (snd (serve req)).

(** Line 6, as it prints in a template literal: the [PORT] variable, or
    the digits of the Number 3000. *)
Definition PORT_text : string :=
  env_or (process_env W "PORT") (Js.string_of_Z 3000).

(** Lines 153-156: what the [listen] callback logs once the server is up. *)
Definition listening : list string :=
  [ "OpenAI to NVIDIA NIM Proxy running on port " ++ PORT_text;
    "Authentication: " ++
      match PROXY_SECRET with
      | Some s => if String.eqb s "" then "DISABLED" else "ENABLED"
      | None => "DISABLED"
      end ].

End App.

End Server.

(** ** Properties of the application *)

Module Properties.
Import Express Server.

(** *** Vocabulary and sample data *)

(** The request carries [Authorization: Bearer <token>] with the token equal
    to the configured secret. *)
Definition authorized (W : World) (req : Request) : Prop :=
  exists token,
    authorization req = Some ("Bearer " ++ token) /\ PROXY_SECRET W = Some token.

(** [error.type] and the like of a JSON body. *)
Definition error_field (field : string) (b : Body) : Js.value :=
  match b with
  | JsonBody v => Js.optget (Js.optget v "error") field
  | _ => Js.undefined
  end.

(** A 401 whose JSON body has [error.type = "authentication_error"]. *)
Definition is_authentication_error (r : Response) : Prop :=
  statusCode r = Js.number 401 /\
  (exists v, sent r = JsonBody v) /\
  error_field "type" (sent r) = Js.str "authentication_error".

(** A world for the concrete runs below: the secret is [s3cret], the clock
    starts at a fixed instant, the upstream answers as given. *)
Definition demo_env (k : string) : option string :=
  if String.eqb k "PROXY_SECRET" then Some "s3cret"
  else if String.eqb k "NIM_API_KEY" then Some "nvapi-demo"
  else None.

Definition demo_world (answer : AxiosCall -> Settled) : World :=
  {| process_env := demo_env;
     clock := fun n => (1700000000123 + Z.of_nat n)%Z;
     upstream := answer;
     number_to_string := fun _ => "0" |}.

(** An upstream that cannot be reached. *)
Definition no_upstream (c : AxiosCall) : Settled :=
  Rejected (Js.object [("message", Js.str "connect ECONNREFUSED")]).

Definition request (m p : string) (auth : option string)
  (b : list (string * Js.value)) : Request :=
  {| method := m; path := p; authorization := auth; body := b |}.

(** A world in which no environment variable is set. *)
Definition unconfigured_world : World :=
  {| process_env := fun _ => None;
     clock := fun _ => 0%Z;
     upstream := no_upstream;
     number_to_string := fun _ => "0" |}.

(** A piece of handler code that makes no call upstream. *)
Definition quiet {A} (c : M A) : Prop :=
  forall st, outbound (snd (c st)) = outbound st.

(** The chat request [{model: "gpt-4o", messages: [{role: "user",
    content: "hi"}]}], authenticated. *)
Definition hi_messages : Js.value :=
  Js.array [Js.object [("role", Js.str "user"); ("content", Js.str "hi")]].

Definition hi_request : Request :=
  request "POST" "/v1/chat/completions" (Some "Bearer s3cret")
    [("model", Js.str "gpt-4o"); ("messages", hi_messages)].

(** The outward shape of a choice with the given content: [index] and
    [finish_reason] as upstream gave them, a message of [role] and
    [content] only. *)
Definition reshaped (choice content : Js.value) : Js.value :=
  Js.object [("index", Js.optget choice "index");
             ("message", Js.object [("role", Js.optget (Js.optget choice "message") "role");
                                    ("content", content)]);
             ("finish_reason", Js.optget choice "finish_reason")].

Definition content_of (translated : Js.value) : Js.value :=
  Js.optget (Js.optget translated "message") "content".

(** The content the callback computes from a message, lines 104-109. *)
Definition merged_content (W : World) (message : Js.value) : Js.completion Js.value :=
  let content := Js.or (Js.optget message "content") (Js.str "") in
  if Js.truthy (Js.optget message "reasoning_content") then
    Js.bind (if Js.truthy content
             then Js.add (number_to_string W) (Js.str JsString.blank_line) content
             else Js.Normal (Js.str ""))
      (fun rest => Js.add (number_to_string W) (Js.optget message "reasoning_content") rest)
  else Js.Normal content.

(** Upstream choices: one with [reasoning_content: "think"] and the given
    content, one without reasoning, one with the given message. *)
Definition thinking_choice (content : list (string * Js.value)) : Js.value :=
  Js.object [("index", Js.number 0);
             ("message", Js.object ([("role", Js.str "assistant");
                                     ("reasoning_content", Js.str "think")] ++ content));
             ("finish_reason", Js.str "stop")].

Definition plain_choice : Js.value :=
  Js.object [("index", Js.number 0);
             ("message", Js.object [("role", Js.str "assistant");
                                    ("content", Js.str "answer")]);
             ("finish_reason", Js.str "stop")].

Definition message_choice (message : list (string * Js.value)) : Js.value :=
  Js.object [("index", Js.number 0);
             ("message", Js.object message);
             ("finish_reason", Js.str "stop")].

(** The state once the chat call has gone out. *)
Definition called (W : World) (req : Request) (st : State) : State :=
  {| res := res st; ticks := ticks st;
     outbound := (outbound st ++ [chat_call W req])%list |}.

(** The error axios rejects with when the upstream answers 429 with the
    body [{error: {message: "rate limited"}}] to a JSON call. *)
Definition rate_limited : list (string * Js.value) :=
  [("message", Js.str "Request failed with status code 429");
   ("response",
    Js.object [("status", Js.number 429);
               ("data", Js.object [("error", Js.object [("message", Js.str "rate limited")])])])].

Definition limiting_world : World := demo_world (fun _ => Rejected (Js.object rate_limited)).




(** The completion envelope of lines 98-125, given its choices and usage. *)
Definition envelope (W : World) (req : Request) (translated : list Js.value)
  (usage : Js.value) : Js.value :=
  Js.object [("id", Js.str ("chatcmpl-" ++ Js.string_of_Z (clock W 0)));
             ("object", Js.str "chat.completion");
             ("created", Js.number (Js.of_Z (clock W 1 / 1000)));
             ("model", Js.lookup "model" (body req));
             ("choices", Js.array translated);
             ("usage", usage)].



Definition event_stream_headers : list (string * string) :=
  [("Content-Type", "text/event-stream");
   ("Cache-Control", "no-cache");
   ("Connection", "keep-alive")].

(** The same chat request with [stream: true], and an upstream that
    answers it with two chunks. *)
Definition streaming_request : Request :=
  request "POST" "/v1/chat/completions" (Some "Bearer s3cret")
    [("model", Js.str "gpt-4o"); ("messages", hi_messages); ("stream", Js.boolean true)].

Definition sse_chunks : list string := ["data: {}"; "data: [DONE]"].

Definition streaming_world : World :=
  demo_world (fun _ => Fulfilled (Js.object [("status", Js.number 200);
                                             ("data", Js.stream sse_chunks)])).

(** What axios rejects with when the upstream answers 429 to a call made
    with [responseType: 'stream']: the body of the failed response is a
    stream too. *)
Definition rate_limited_stream : list (string * Js.value) :=
  [("message", Js.str "Request failed with status code 429");
   ("response", Js.object [("status", Js.number 429);
                           ("data", Js.stream ["{}"])])].

Definition limiting_stream_world : World :=
  demo_world (fun _ => Rejected (Js.object rate_limited_stream)).

(** A chat request that sets [temperature: 0] and [max_tokens: 100]. *)
Definition cold_request : Request :=
  request "POST" "/v1/chat/completions" (Some "Bearer s3cret")
    [("model", Js.str "gpt-4o"); ("messages", hi_messages);
     ("temperature", Js.number 0); ("max_tokens", Js.number 100)].

(** The fields of the inbound body that have a default, with it. *)
Definition defaulted_fields : list (string * Js.value) :=
  [("temperature", Js.number 0.7);
   ("max_tokens", Js.number 2048);
   ("stream", Js.boolean false)].

(** A world with no upstream key and an empty upstream base. *)
Definition keyless_world : World :=
  {| process_env := fun k =>
       if String.eqb k "PROXY_SECRET" then Some "s3cret"
       else if String.eqb k "NIM_API_BASE" then Some ""
       else None;
     clock := fun _ => 0%Z;
     upstream := no_upstream;
     number_to_string := fun _ => "0" |}.

(** A [TypeError] raised by the engine, with its (never empty) text. *)
Definition is_TypeError (e : Js.value) : Prop :=
  exists message, message <> "" /\ e = Js.TypeError message.

(** The envelope of lines 98-125 as a function of the two clock readings. *)
Definition envelope_at (W : World) (model response : Js.value) (t1 t2 : Z) :
  Js.completion Js.value :=
  (data <- Js.get response "data" ;;
   choices <- Js.get data "choices" ;;
   choices <- array_map "response.data.choices" (translate_choice W) choices ;;
   Js.Normal
     (Js.object [("id", Js.str ("chatcmpl-" ++ Js.string_of_Z t1));
                 ("object", Js.str "chat.completion");
                 ("created", Js.number (Js.of_Z (t2 / 1000)));
                 ("model", model);
                 ("choices", choices);
                 ("usage", Js.or (Js.optget data "usage") zero_usage)]))%js.

(** The state after the two clock readings of the envelope. *)
Definition stamped (st : State) : State :=
  {| res := res st; ticks := S (S (ticks st)); outbound := outbound st |}.

(** The request was answered: a response went out, with a JSON body, the
    piped stream, or (for a preflight) no content. *)
Definition answered (r : Response) : Prop :=
  (exists v, sent r = JsonBody v) \/ (exists chunks, sent r = StreamBody chunks) \/
  sent r = EmptyBody.

(** A status code Node accepts when the response head is written: an
    integer from 100 to 999.  With any other status [res.status(s).json(..)]
    throws instead of sending, which the model of [res.json] leaves out; the
    properties that relay an upstream status assume it is one of these. *)
Definition http_status (v : Js.value) : Prop :=
  exists code : Z, (100 <= code <= 999)%Z /\ v = Js.number (Js.of_Z code).

(** [error.response?.status] *)
Definition relayed_status (e : Js.value) : Js.value :=
  Js.optget (Js.optget e "response") "status".

(** An upstream that answers 200 with the given JSON data. *)
Definition json_world (d : Js.value) : World :=
  demo_world (fun _ => Fulfilled (Js.object [("status", Js.number 200); ("data", d)])).

(** An upstream choice that has no message. *)
Definition bare_choice : Js.value :=
  Js.object [("index", Js.number 1); ("finish_reason", Js.str "stop")].

(** The 500 of a failed translation, with the engine's text. *)
Definition is_translation_failure (r : Response) : Prop :=
  statusCode r = Js.number 500 /\
  exists message,
    message <> "" /\
    sent r = JsonBody (chat_error (Js.number 500) (Js.str message)).

(** An upstream that fails with an error bare of text and of response. *)
Definition blank_error_world : World :=
  demo_world (fun _ => Rejected (Js.object [])).

(** A world whose secret is the empty string. *)
Definition empty_secret_world : World :=
  {| process_env := fun k => if String.eqb k "PROXY_SECRET" then Some "" else None;
     clock := fun _ => 0%Z;
     upstream := no_upstream;
     number_to_string := fun _ => "0" |}.

(** The text of the 401 for a header that does not unlock the route. *)
Definition rejection_text (authHeader : option string) : string :=
  match authHeader with
  | None => "Unauthorized: Missing API key"
  | Some h =>
      if String.eqb h "" || negb (JsString.startsWith h "Bearer ")
      then "Unauthorized: Missing API key"
      else "Unauthorized: Invalid API key"
  end.

(** The names of the five fields the payload sent upstream is made of. *)
Definition payload_fields : list string :=
  ["model"; "messages"; "temperature"; "max_tokens"; "stream"].

(** A chat request with sampling and tool fields beside the usual ones. *)
Definition rich_request : Request :=
  request "POST" "/v1/chat/completions" (Some "Bearer s3cret")
    [("model", Js.str "gpt-4o"); ("messages", hi_messages);
     ("top_p", Js.number 0.5); ("stop", Js.array [Js.str "END"]);
     ("tools", Js.array [Js.object [("type", Js.str "function")]])].

(** An upstream choice whose message carries tool calls as well. *)
Definition tool_choice : Js.value :=
  Js.object [("index", Js.number 0);
             ("message", Js.object [("role", Js.str "assistant");
                                    ("content", Js.null);
                                    ("tool_calls", Js.array [Js.object []])]);
             ("finish_reason", Js.str "tool_calls");
             ("logprobs", Js.null)].

(** Each translated choice is the reshaping of the upstream choice at the
    same place, with some content. *)
Definition mirrors (choice translated : Js.value) : Prop :=
  exists content, translated = reshaped choice content.

(** *** The JavaScript fragment *)

Lemma prefix_app (p t : string) : String.prefix p (p ++ t) = true.
Proof.
  induction p as [|c p IH]; simpl.
  - destruct t; reflexivity.
  - destruct (ascii_dec c c) as [_|ne]; [exact IH | contradiction].
Qed.

Lemma prefix_split (p s : string) :
  String.prefix p s = true -> s = p ++ JsString.drop (String.length p) s.
Proof.
  revert s; induction p as [|c p IH]; intros s H.
  - reflexivity.
  - destruct s as [|d s]; simpl in H; [discriminate|].
    destruct (ascii_dec c d) as [->|]; [|discriminate].
    simpl. f_equal. apply IH. exact H.
Qed.

Lemma drop_app (p t : string) : JsString.drop (String.length p) (p ++ t) = t.
Proof. induction p as [|c p IH]; simpl; [destruct t; reflexivity | exact IH]. Qed.

Lemma replace_unfold (pat rep s : string) :
  JsString.replace pat rep s =
  if String.prefix pat s then rep ++ JsString.drop (String.length pat) s
  else match s with
       | EmptyString => EmptyString
       | String c s' => String c (JsString.replace pat rep s')
       end.
Proof. destruct s; reflexivity. Qed.

(** Replacing the first occurrence of a prefix replaces that prefix. *)
Lemma replace_prefix (p rep t : string) : JsString.replace p rep (p ++ t) = rep ++ t.
Proof. rewrite replace_unfold, prefix_app, drop_app. reflexivity. Qed.

Lemma append_nil_r (s : string) : s ++ "" = s.
Proof. induction s; simpl; congruence. Qed.

Example replace_leading : JsString.replace "Bearer " "" "Bearer s3cret" = "s3cret".
Proof. reflexivity. Qed.

Example replace_first_only :
  JsString.replace "Bearer " "" "Bearer Bearer x" = "Bearer x".
Proof. reflexivity. Qed.

Example replace_inner : JsString.replace "Bearer " "" "x Bearer y" = "x y".
Proof. reflexivity. Qed.

Example lower_mixed : JsString.toLowerCase "/V1/Models" = "/v1/models".
Proof. reflexivity. Qed.

Lemma truthy_str (s : string) : Js.truthy (Js.str s) = true <-> s <> "".
Proof.
  simpl. destruct (String.eqb_spec s ""); simpl; split; intros; congruence.
Qed.

Lemma or_truthy (a b : Js.value) : Js.truthy a = true -> Js.or a b = a.
Proof. unfold Js.or; intros ->; reflexivity. Qed.

Lemma or_falsy (a b : Js.value) : Js.truthy a = false -> Js.or a b = b.
Proof. unfold Js.or; intros ->; reflexivity. Qed.

Lemma add_str (nts : float -> string) (s t : string) :
  Js.add nts (Js.str s) (Js.str t) = Js.Normal (Js.str (s ++ t)).
Proof. reflexivity. Qed.

Example add_null_text (nts : float -> string) :
  Js.add nts (Js.str "a") Js.null = Js.Normal (Js.str "anull").
Proof. reflexivity. Qed.

Example add_array_text (nts : float -> string) :
  Js.add nts (Js.str "x")
    (Js.array [Js.str "a"; Js.null; Js.array [Js.str "b"; Js.str "c"]]) =
  Js.Normal (Js.str "xa,,b,c").
Proof. reflexivity. Qed.

Example add_numbers (nts : float -> string) :
  Js.add nts (Js.number 1) (Js.boolean true) = Js.Normal (Js.number 2).
Proof. reflexivity. Qed.

Example zero_is_falsy :
  Js.truthy (Js.number 0) = false /\ Js.truthy (Js.number 0.7) = true.
Proof. split; reflexivity. Qed.

Example digits_of_instant : Js.string_of_Z 1700000000123 = "1700000000123".
Proof. reflexivity. Qed.

Example health_matches :
  path_matches "/health" "/health" = true /\
  path_matches "/health" "/Health/" = true /\
  path_matches "/health" "/healthz" = false /\
  path_matches "/health" "/health//" = false.
Proof. repeat split. Qed.

(** *** The authentication middleware *)

Lemma reject_run (message : string) (st : State) :
  reject message st =
  (Js.Normal tt,
   {| res := {| statusCode := Js.number 401;
                headers := headers (res st);
                sent := JsonBody (auth_error message) |};
      ticks := ticks st;
      outbound := outbound st |}).
Proof. reflexivity. Qed.

Lemma reject_is_authentication_error (message : string) (st : State) :
  is_authentication_error (res (snd (reject message st))).
Proof.
  rewrite reject_run. repeat split. eexists; reflexivity.
Qed.

Lemma authenticate_pass (W : World) (req : Request) (next : M unit) :
  authorized W req -> authenticate W req next = next.
Proof.
  intros [token [Hh Hs]]. unfold authenticate.
  destruct (String.eqb (path req) "/health"); [reflexivity|].
  rewrite Hh. unfold JsString.startsWith.
  rewrite (prefix_app "Bearer " token).
  rewrite (replace_prefix "Bearer " "" token).
  rewrite Hs. simpl. rewrite String.eqb_refl. reflexivity.
Qed.

Lemma authenticate_exempt (W : World) (req : Request) (next : M unit) :
  path req = "/health" -> authenticate W req next = next.
Proof. intros Hp. unfold authenticate. rewrite Hp. reflexivity. Qed.

(** Past the exemption, the middleware either rejects or has found the
    secret behind ['Bearer ']. *)
Lemma authenticate_cases (W : World) (req : Request) (next : M unit) :
  path req <> "/health" ->
  (exists message, authenticate W req next = reject message) \/ authorized W req.
Proof.
  intros Hp. unfold authenticate.
  destruct (String.eqb_spec (path req) "/health") as [E|_]; [contradiction|].
  destruct (authorization req) as [h|] eqn:Hh; [|left; eexists; reflexivity].
  destruct (String.eqb h "" || negb (JsString.startsWith h "Bearer ")) eqn:Hb;
    [left; eexists; reflexivity|].
  apply orb_false_iff in Hb. destruct Hb as [_ Hb].
  apply negb_false_iff in Hb. unfold JsString.startsWith in Hb.
  apply prefix_split in Hb.
  remember (JsString.drop (String.length "Bearer ") h) as token eqn:Ht.
  assert (Hr : JsString.replace "Bearer " "" h = token).
  { rewrite Hb. apply (replace_prefix "Bearer " "" token). }
  rewrite Hr.
  destruct (PROXY_SECRET W) as [s|] eqn:Hs; simpl.
  - destruct (String.eqb_spec token s) as [->|ne]; simpl.
    + right. exists s. split; congruence.
    + left; eexists; reflexivity.
  - left; eexists; reflexivity.
Qed.

Lemma authorized_header (W : World) (req : Request) :
  authorized W req ->
  exists token, authorization req = Some ("Bearer " ++ token) /\
                PROXY_SECRET W = Some token /\
                JsString.startsWith ("Bearer " ++ token) "Bearer " = true.
Proof.
  intros [token [Hh Hs]]. exists token. repeat split; try assumption.
  apply (prefix_app "Bearer " token).
Qed.

(** *** The preflight gate *)

Lemma app_not_preflight (W : World) (req : Request) :
  is_preflight req = false -> app W req = authenticate W req (routes W req).
Proof. intros H. unfold app, cors. rewrite H. reflexivity. Qed.

(** A preflight is answered by [cors()] alone. *)
Lemma serve_preflight (W : World) (req : Request) :
  is_preflight req = true ->
  serve W req =
  (Js.Normal tt,
   {| res := {| statusCode := Js.number 204; headers := []; sent := EmptyBody |};
      ticks := 0;
      outbound := [] |}).
Proof. intros H. unfold serve, app, cors. rewrite H. reflexivity. Qed.


Lemma chat_is_not_preflight (req : Request) :
  is_chat req = true -> is_preflight req = false.
Proof.
  unfold is_chat, post_handles, is_preflight. intros H.
  apply andb_true_iff in H. destruct H as [H _].
  apply String.eqb_eq in H. rewrite H. reflexivity.
Qed.


(** Two Numbers that compare different are different values. *)
Lemma number_differs (x y : float) :
  PrimFloat.eqb x x = true -> PrimFloat.eqb x y = false -> Js.number x <> Js.number y.
Proof. intros Hx Hxy E. injection E as E. rewrite <- E in Hxy. congruence. Qed.

(** C1, as the code has it: on every request other than an OPTIONS
    request (which [cors()] answers itself) whose path is not [/health], a
    missing Authorization header, one that does not start with ['Bearer '],
    or a token different from the configured secret yields HTTP 401 with a
    JSON body whose [error.type] is ["authentication_error"]; a token equal
    to the secret lets the request through to the route handlers. *)
Theorem auth_gate (W : World) (req : Request) :
  is_preflight req = false ->
  path req <> "/health" ->
  ((authorization req = None \/
    (exists h, authorization req = Some h /\ JsString.startsWith h "Bearer " = false) \/
    (exists token, authorization req = Some ("Bearer " ++ token) /\
                   PROXY_SECRET W <> Some token)) ->
   is_authentication_error (response_to W req)) /\
  (authorized W req -> serve W req = routes W req initial).
Proof.
  intros Hpre Hp. unfold response_to, serve. rewrite (app_not_preflight W req Hpre). split.
  - intros Hbad.
    destruct (authenticate_cases W req (routes W req) Hp) as [[message ->]|Hok].
    + apply reject_is_authentication_error.
    + exfalso. apply authorized_header in Hok.
      destruct Hok as [token [Hh [Hs Hstart]]].
      destruct Hbad as [Hnone | [[h [Hh' Hno]] | [token' [Hh' Hne]]]].
      * congruence.
      * assert (E : h = "Bearer " ++ token) by congruence.
        rewrite E in Hno. congruence.
      * rewrite Hh in Hh'. injection Hh' as E. congruence.
  - intros Hok. rewrite (authenticate_pass W req _ Hok). reflexivity.
Qed.

Lemma auth_gate_witness :
  is_authentication_error
    (response_to (demo_world no_upstream) (request "GET" "/v1/models" None [])) /\
  is_authentication_error
    (response_to (demo_world no_upstream)
       (request "GET" "/v1/models" (Some "Basic s3cret") [])) /\
  is_authentication_error
    (response_to (demo_world no_upstream)
       (request "GET" "/v1/models" (Some "Bearer wrong") [])) /\
  serve (demo_world no_upstream) (request "GET" "/v1/models" (Some "Bearer s3cret") []) =
  routes (demo_world no_upstream) (request "GET" "/v1/models" (Some "Bearer s3cret") [])
    initial.
Proof.
  split; [|split; [|split]].
  - apply (auth_gate (demo_world no_upstream) (request "GET" "/v1/models" None []));
      [reflexivity | discriminate | left; reflexivity].
  - apply (auth_gate (demo_world no_upstream)
             (request "GET" "/v1/models" (Some "Basic s3cret") []));
      [reflexivity | discriminate | right; left; eexists; split; reflexivity].
  - apply (auth_gate (demo_world no_upstream)
             (request "GET" "/v1/models" (Some "Bearer wrong") []));
      [reflexivity | discriminate
      | right; right; exists "wrong"; split; [reflexivity | discriminate]].
  - apply (auth_gate (demo_world no_upstream)
             (request "GET" "/v1/models" (Some "Bearer s3cret") []));
      [reflexivity | discriminate | exists "s3cret"; split; reflexivity].
Defined.

(** C1 as stated fails: an OPTIONS request for [/v1/models] without an
    Authorization header is not answered 401; [cors()], registered first,
    answers it 204 with no body and the middleware never runs. *)
Lemma auth_gate_counterexample :
  path (request "OPTIONS" "/v1/models" None []) <> "/health" /\
  authorization (request "OPTIONS" "/v1/models" None []) = None /\
  response_to (demo_world no_upstream) (request "OPTIONS" "/v1/models" None []) =
    {| statusCode := Js.number 204; headers := []; sent := EmptyBody |} /\
  statusCode (response_to (demo_world no_upstream)
                (request "OPTIONS" "/v1/models" None [])) <> Js.number 401 /\
  ~ is_authentication_error
      (response_to (demo_world no_upstream) (request "OPTIONS" "/v1/models" None [])).
Proof.
  split; [discriminate|]. split; [reflexivity|]. split; [reflexivity|].
  split; [apply number_differs; reflexivity|].
  intros [_ [[v Hv] _]]. discriminate Hv.
Qed.

(** C9, as the code has it: with the shared secret unconfigured
    ([PROXY_SECRET] undefined), every request other than an OPTIONS request
    to a protected route is answered 401, whatever its Authorization
    header, the token ["undefined"] included. *)
Theorem unconfigured_secret_rejects (W : World) (req : Request) :
  PROXY_SECRET W = None ->
  is_preflight req = false ->
  path req <> "/health" ->
  is_authentication_error (response_to W req).
Proof.
  intros Hs Hpre Hp. unfold response_to, serve. rewrite (app_not_preflight W req Hpre).
  destruct (authenticate_cases W req (routes W req) Hp) as [[message ->]|[token [_ Hok]]].
  - apply reject_is_authentication_error.
  - congruence.
Qed.

Lemma unconfigured_secret_rejects_witness :
  is_authentication_error
    (response_to unconfigured_world
       (request "POST" "/v1/chat/completions" (Some "Bearer undefined") [])).
Proof.
  apply (unconfigured_secret_rejects unconfigured_world
           (request "POST" "/v1/chat/completions" (Some "Bearer undefined") []));
    [reflexivity | reflexivity | discriminate].
Defined.

(** C9 as stated fails: with no secret configured, an OPTIONS request to a
    protected route is not rejected with 401; [cors()] answers it 204.  No
    handler runs for it either, so nothing is admitted. *)
Lemma unconfigured_secret_rejects_counterexample :
  PROXY_SECRET unconfigured_world = None /\
  path (request "OPTIONS" "/v1/chat/completions" (Some "Bearer undefined") []) <>
    "/health" /\
  serve unconfigured_world
    (request "OPTIONS" "/v1/chat/completions" (Some "Bearer undefined") []) =
    (Js.Normal tt,
     {| res := {| statusCode := Js.number 204; headers := []; sent := EmptyBody |};
        ticks := 0;
        outbound := [] |}) /\
  statusCode
    (response_to unconfigured_world
       (request "OPTIONS" "/v1/chat/completions" (Some "Bearer undefined") [])) <>
  Js.number 401 /\
  ~ is_authentication_error
      (response_to unconfigured_world
         (request "OPTIONS" "/v1/chat/completions" (Some "Bearer undefined") [])).
Proof.
  split; [reflexivity|]. split; [discriminate|]. split; [reflexivity|].
  split; [apply number_differs; reflexivity|].
  intros [_ [[v Hv] _]]. discriminate Hv.
Qed.

(** *** The routes *)


(** C8, as the code has it: an authenticated request other than an OPTIONS
    request that none of the routes [/health], [GET /v1/models],
    [POST /v1/chat/completions] matches is answered 404 with a JSON body
    whose error has type ["invalid_request_error"], code 404 and a message
    that contains the request path. *)
Theorem unmatched_is_not_found (W : World) (req : Request) :
  is_preflight req = false ->
  authorized W req ->
  is_health req = false ->
  is_models req = false ->
  is_chat req = false ->
  statusCode (response_to W req) = Js.number 404 /\
  error_field "type" (sent (response_to W req)) = Js.str "invalid_request_error" /\
  error_field "code" (sent (response_to W req)) = Js.number 404 /\
  exists message,
    error_field "message" (sent (response_to W req)) = Js.str message /\
    JsString.includes message (path req).
Proof.
  intros Hpre Hok Hh Hm Hc. unfold response_to, serve.
  rewrite (app_not_preflight W req Hpre).
  rewrite (authenticate_pass W req _ Hok).
  unfold routes. rewrite Hh, Hm, Hc. simpl.
  repeat split.
  exists ("Endpoint " ++ path req ++ " not found"). split; [reflexivity|].
  exists "Endpoint ", " not found". reflexivity.
Qed.

Lemma unmatched_is_not_found_witness :
  statusCode (response_to (demo_world no_upstream)
                (request "GET" "/foo" (Some "Bearer s3cret") [])) = Js.number 404 /\
  exists message,
    error_field "message"
      (sent (response_to (demo_world no_upstream)
               (request "GET" "/foo" (Some "Bearer s3cret") []))) = Js.str message /\
    JsString.includes message "/foo".
Proof.
  destruct (unmatched_is_not_found (demo_world no_upstream)
              (request "GET" "/foo" (Some "Bearer s3cret") []))
    as [Hs [_ [_ Hm]]];
    [reflexivity | exists "s3cret"; split; reflexivity | reflexivity | reflexivity
    | reflexivity |].
  split; [exact Hs | exact Hm].
Defined.

(** C8 as stated fails: an authenticated OPTIONS request for [/foo], which
    none of the routes matches, is not answered 404; [cors()] answers it
    204 with no body and the catch-all never runs. *)
Lemma unmatched_is_not_found_counterexample :
  authorized (demo_world no_upstream)
    (request "OPTIONS" "/foo" (Some "Bearer s3cret") []) /\
  is_health (request "OPTIONS" "/foo" (Some "Bearer s3cret") []) = false /\
  is_models (request "OPTIONS" "/foo" (Some "Bearer s3cret") []) = false /\
  is_chat (request "OPTIONS" "/foo" (Some "Bearer s3cret") []) = false /\
  response_to (demo_world no_upstream)
    (request "OPTIONS" "/foo" (Some "Bearer s3cret") []) =
    {| statusCode := Js.number 204; headers := []; sent := EmptyBody |} /\
  statusCode (response_to (demo_world no_upstream)
                (request "OPTIONS" "/foo" (Some "Bearer s3cret") [])) <> Js.number 404 /\
  error_field "type"
    (sent (response_to (demo_world no_upstream)
             (request "OPTIONS" "/foo" (Some "Bearer s3cret") []))) <>
  Js.str "invalid_request_error".
Proof.
  split; [exists "s3cret"; split; reflexivity|].
  repeat (split; [reflexivity|]).
  split; [apply number_differs; reflexivity | discriminate].
Qed.




(** *** Calls made upstream *)

Lemma quiet_ret {A} (a : A) : quiet (ret a).
Proof. intros st; reflexivity. Qed.

Lemma quiet_throw {A} (e : Js.value) : quiet (@throw A e).
Proof. intros st; reflexivity. Qed.

Lemma quiet_lift {A} (c : Js.completion A) : quiet (lift c).
Proof. intros st; reflexivity. Qed.

Lemma quiet_with_res (f : Response -> Response) : quiet (with_res f).
Proof. intros st; reflexivity. Qed.

Lemma quiet_Date_now (W : World) : quiet (Date_now W).
Proof. intros st; reflexivity. Qed.

Lemma quiet_bind {A B} (c : M A) (k : A -> M B) :
  quiet c -> (forall a, quiet (k a)) -> quiet (bind c k).
Proof.
  intros Hc Hk st. unfold bind. specialize (Hc st).
  destruct (c st) as [[a|e] st']; simpl in *.
  - rewrite Hk. exact Hc.
  - exact Hc.
Qed.

Lemma quiet_try_catch {A} (c : M A) (h : Js.value -> M A) :
  quiet c -> (forall e, quiet (h e)) -> quiet (try_catch c h).
Proof.
  intros Hc Hh st. unfold try_catch. specialize (Hc st).
  destruct (c st) as [[a|e] st']; simpl in *.
  - exact Hc.
  - rewrite Hh. exact Hc.
Qed.

Lemma quiet_pipe (what : string) (source : Js.value) : quiet (pipe what source).
Proof. destruct source; intros st; reflexivity. Qed.

Create HintDb quiet.
#[local] Hint Resolve quiet_ret quiet_throw quiet_lift quiet_with_res quiet_Date_now
  quiet_pipe : quiet.

(** Handler code built from quiet pieces is quiet. *)
Ltac quiet_steps :=
  repeat first
    [ apply quiet_bind; [|intro]
    | apply quiet_try_catch; [|intro]
    | solve [auto with quiet] ].

Lemma quiet_reject (message : string) : quiet (reject message).
Proof. unfold reject, res_status, res_json. quiet_steps. Qed.

Lemma quiet_health : quiet health.
Proof. unfold health, res_json. quiet_steps. Qed.

Lemma quiet_models (W : World) : quiet (models W).
Proof. unfold models, res_json. quiet_steps. Qed.

Lemma quiet_catch_all (req : Request) : quiet (catch_all req).
Proof. unfold catch_all, res_status, res_json. quiet_steps. Qed.

Lemma quiet_chat_catch (e : Js.value) : quiet (chat_catch e).
Proof. unfold chat_catch, res_status, res_json. quiet_steps. Qed.

Lemma quiet_openaiResponse (W : World) (model response : Js.value) :
  quiet (openaiResponse W model response).
Proof. unfold openaiResponse. quiet_steps. Qed.

#[local] Hint Resolve quiet_openaiResponse : quiet.

(** The chat handler makes exactly one call, the one [chat_call] builds. *)
Lemma chat_outbound (W : World) (req : Request) (st : State) :
  outbound (snd (chat W req st)) = (outbound st ++ [chat_call W req])%list.
Proof.
  unfold chat, try_catch, chat_try, bind at 1, axios_post.
  destruct (upstream W (chat_call W req)) as [response|error].
  - match goal with
    | |- context [(if ?b then ?x else ?y) ?s] =>
        assert (Hq : quiet (if b then x else y))
          by (destruct b; unfold res_setHeader, res_json; quiet_steps);
        specialize (Hq s); destruct ((if b then x else y) s) as [[u|e] st']
    end; simpl in *.
    + exact Hq.
    + rewrite quiet_chat_catch. exact Hq.
  - rewrite quiet_chat_catch. reflexivity.
Qed.

Lemma chat_is_not_get (req : Request) :
  is_chat req = true -> is_health req = false /\ is_models req = false.
Proof.
  unfold is_chat, is_health, is_models, post_handles, get_handles.
  intros H. apply andb_true_iff in H. destruct H as [Hm _].
  apply String.eqb_eq in Hm. rewrite Hm. split; reflexivity.
Qed.

Lemma chat_route (W : World) (req : Request) :
  is_chat req = true -> routes W req = chat W req.
Proof.
  intros H. destruct (chat_is_not_get req H) as [Hh Hm].
  unfold routes. rewrite Hh, Hm, H. reflexivity.
Qed.

(** Whatever the request, the only call the application can make is the
    chat call. *)
Lemma calls_are_chat_calls (W : World) (req : Request) (c : AxiosCall) :
  In c (calls_of W req) -> c = chat_call W req.
Proof.
  unfold calls_of.
  destruct (is_preflight req) eqn:Hpre;
    [rewrite (serve_preflight W req Hpre); contradiction|].
  unfold serve. rewrite (app_not_preflight W req Hpre). unfold authenticate.
  assert (Hr : forall st, outbound st = [] ->
                 In c (outbound (snd (routes W req st))) -> c = chat_call W req).
  { intros st Hst. unfold routes.
    destruct (is_health req); [rewrite quiet_health, Hst; contradiction|].
    destruct (is_models req); [rewrite quiet_models, Hst; contradiction|].
    destruct (is_chat req); [|rewrite quiet_catch_all, Hst; contradiction].
    rewrite chat_outbound, Hst. simpl. intros [E|[]]. symmetry; exact E. }
  assert (Hj : forall message, In c (outbound (snd (reject message initial))) ->
                 c = chat_call W req).
  { intros message. rewrite quiet_reject. contradiction. }
  destruct (String.eqb (path req) "/health"); [apply Hr; reflexivity|].
  destruct (authorization req) as [h|]; [|apply Hj].
  destruct (String.eqb h "" || negb (JsString.startsWith h "Bearer ")); [apply Hj|].
  destruct (negb (Js.strict_eq_str (JsString.replace "Bearer " "" h) (PROXY_SECRET W)));
    [apply Hj | apply Hr; reflexivity].
Qed.

(** C2: serving a POST to [/v1/chat/completions], the payload of every
    outbound call has the fixed model identifier [z-ai/glm4.7] whatever the
    client asked for, carries temperature 0.7, max_tokens 2048 and stream
    false when the inbound body lacks them; an authenticated request makes
    exactly one such call. *)
Theorem upstream_payload (W : World) (req : Request) :
  is_chat req = true ->
  (forall c, In c (calls_of W req) ->
     Js.optget (data c) "model" = Js.str "z-ai/glm4.7" /\
     Js.optget (data c) "messages" = Js.lookup "messages" (body req) /\
     (Js.lookup "temperature" (body req) = Js.undefined ->
      Js.optget (data c) "temperature" = Js.number 0.7) /\
     (Js.lookup "max_tokens" (body req) = Js.undefined ->
      Js.optget (data c) "max_tokens" = Js.number 2048) /\
     (Js.lookup "stream" (body req) = Js.undefined ->
      Js.optget (data c) "stream" = Js.boolean false)) /\
  (authorized W req -> calls_of W req = [chat_call W req]).
Proof.
  intros Hc. split.
  - intros c Hin. rewrite (calls_are_chat_calls W req c Hin). simpl.
    repeat split; intros ->; reflexivity.
  - intros Hok. unfold calls_of, serve.
    rewrite (app_not_preflight W req (chat_is_not_preflight req Hc)).
    rewrite (authenticate_pass W req _ Hok), (chat_route W req Hc).
    apply chat_outbound.
Qed.

Lemma upstream_payload_witness :
  calls_of (demo_world no_upstream) hi_request =
  [ {| url := "https://integrate.api.nvidia.com/v1/chat/completions";
       data := Js.object [("model", Js.str "z-ai/glm4.7");
                          ("messages", hi_messages);
                          ("temperature", Js.number 0.7);
                          ("max_tokens", Js.number 2048);
                          ("stream", Js.boolean false)];
       config_headers := [("Authorization", "Bearer nvapi-demo");
                          ("Content-Type", "application/json")];
       responseType := "json" |} ].
Proof.
  apply (upstream_payload (demo_world no_upstream) hi_request);
    [reflexivity | exists "s3cret"; split; reflexivity].
Defined.

(** *** Reshaping a choice *)

Lemma translate_choice_message (W : World) (choice : Js.value)
  (ps : list (string * Js.value)) :
  Js.optget choice "message" = Js.object ps ->
  translate_choice W choice =
  Js.bind (merged_content W (Js.object ps))
    (fun content => Js.Normal (reshaped choice content)).
Proof.
  intros Hm. destruct choice; simpl in Hm; try discriminate.
  unfold translate_choice, reshaped, merged_content.
  cbn [Js.get Js.optget Js.bind]. rewrite Hm. cbn [Js.get Js.optget Js.bind].
  match goal with |- Js.bind ?x _ = _ => destruct x; reflexivity end.
Qed.


Lemma merged_reasoning_only (W : World) (ps : list (string * Js.value)) (rc : string) :
  Js.lookup "reasoning_content" ps = Js.str rc -> rc <> "" ->
  Js.truthy (Js.lookup "content" ps) = false ->
  merged_content W (Js.object ps) = Js.Normal (Js.str rc).
Proof.
  intros Hrc Hne Hc. unfold merged_content. simpl Js.optget. rewrite Hrc.
  apply truthy_str in Hne. rewrite Hne.
  rewrite (or_falsy _ _ Hc). cbn [Js.truthy String.eqb negb Js.bind].
  rewrite add_str, append_nil_r. reflexivity.
Qed.






(** C10: when the message of an upstream choice has a non-empty
    [reasoning_content] and its [content] is absent, [null] or the empty
    string, the translated content is the reasoning exactly, with no blank
    line appended. *)
Theorem reasoning_alone_has_no_separator (W : World) (choice : Js.value)
  (ps : list (string * Js.value)) (rc : string) :
  Js.optget choice "message" = Js.object ps ->
  Js.lookup "reasoning_content" ps = Js.str rc -> rc <> "" ->
  Js.lookup "content" ps = Js.undefined \/
  Js.lookup "content" ps = Js.null \/
  Js.lookup "content" ps = Js.str "" ->
  translate_choice W choice = Js.Normal (reshaped choice (Js.str rc)) /\
  content_of (reshaped choice (Js.str rc)) = Js.str rc.
Proof.
  intros Hm Hrc Hne Hc. split; [|reflexivity].
  rewrite (translate_choice_message W choice ps Hm).
  rewrite (merged_reasoning_only W ps rc Hrc Hne); [reflexivity|].
  destruct Hc as [-> | [-> | ->]]; reflexivity.
Qed.

Lemma reasoning_alone_has_no_separator_witness :
  translate_choice (demo_world no_upstream) (thinking_choice []) =
    Js.Normal (reshaped (thinking_choice []) (Js.str "think")) /\
  translate_choice (demo_world no_upstream) (thinking_choice [("content", Js.null)]) =
    Js.Normal (reshaped (thinking_choice [("content", Js.null)]) (Js.str "think")) /\
  translate_choice (demo_world no_upstream) (thinking_choice [("content", Js.str "")]) =
    Js.Normal (reshaped (thinking_choice [("content", Js.str "")]) (Js.str "think")).
Proof.
  split; [|split].
  - apply (reasoning_alone_has_no_separator (demo_world no_upstream) (thinking_choice [])
             [("role", Js.str "assistant"); ("reasoning_content", Js.str "think")]
             "think" eq_refl eq_refl);
      [discriminate | left; reflexivity].
  - apply (reasoning_alone_has_no_separator (demo_world no_upstream)
             (thinking_choice [("content", Js.null)])
             [("role", Js.str "assistant"); ("reasoning_content", Js.str "think");
              ("content", Js.null)]
             "think" eq_refl eq_refl);
      [discriminate | right; left; reflexivity].
  - apply (reasoning_alone_has_no_separator (demo_world no_upstream)
             (thinking_choice [("content", Js.str "")])
             [("role", Js.str "assistant"); ("reasoning_content", Js.str "think");
              ("content", Js.str "")]
             "think" eq_refl eq_refl);
      [discriminate | right; right; reflexivity].
Defined.

(** *** The chat handler *)

Lemma chat_serve (W : World) (req : Request) :
  is_chat req = true -> authorized W req -> serve W req = chat W req initial.
Proof.
  intros Hc Hok. unfold serve.
  rewrite (app_not_preflight W req (chat_is_not_preflight req Hc)).
  rewrite (authenticate_pass W req _ Hok), (chat_route W req Hc). reflexivity.
Qed.

(** A rejected outbound call lands in the [catch] block with its error. *)
Lemma chat_try_rejected (W : World) (req : Request) (error : Js.value) (st : State) :
  upstream W (chat_call W req) = Rejected error ->
  chat_try W req st = (Js.Throw error, called W req st).
Proof.
  intros Hup. unfold chat_try, bind, axios_post. rewrite Hup. reflexivity.
Qed.

Lemma chat_catch_run (ps : list (string * Js.value)) (st : State) :
  let response := Js.lookup "response" ps in
  let status := Js.or (Js.optget response "status") (Js.number 500) in
  let text := Js.optget (Js.optget (Js.optget response "data") "error") "message" in
  chat_catch (Js.object ps) st =
  (Js.Normal tt,
   {| res := {| statusCode := status;
                headers := headers (res st);
                sent := JsonBody
                          (chat_error status
                             (Js.or (Js.or text (Js.lookup "message" ps))
                                (Js.str "Internal server error"))) |};
      ticks := ticks st;
      outbound := outbound st |}).
Proof. reflexivity. Qed.

(** C4: when the [try] block of the chat handler fails with an error
    (a rejected outbound call, or a failure while translating), the
    response status is the upstream HTTP status when the error carries one
    (a truthy [error.response.status], which being an HTTP status is a code
    from 100 to 999) and 500 otherwise; the JSON body's error has that
    status as [code], type ["invalid_request_error"], and as [message] the
    upstream error message when there is one, else the error's own text. *)
Theorem upstream_failure (W : World) (req : Request)
  (ps : list (string * Js.value)) (st : State) :
  is_chat req = true ->
  authorized W req ->
  chat_try W req initial = (Js.Throw (Js.object ps), st) ->
  (Js.truthy (relayed_status (Js.object ps)) = true ->
   http_status (relayed_status (Js.object ps))) ->
  let upstream_status := Js.optget (Js.lookup "response" ps) "status" in
  let upstream_text :=
    Js.optget (Js.optget (Js.optget (Js.lookup "response" ps) "data") "error") "message" in
  let r := response_to W req in
  (Js.truthy upstream_status = true -> statusCode r = upstream_status) /\
  (Js.truthy upstream_status = false -> statusCode r = Js.number 500) /\
  (exists v, sent r = JsonBody v) /\
  error_field "type" (sent r) = Js.str "invalid_request_error" /\
  error_field "code" (sent r) = statusCode r /\
  (Js.truthy upstream_text = true -> error_field "message" (sent r) = upstream_text) /\
  (Js.truthy upstream_text = false -> Js.truthy (Js.lookup "message" ps) = true ->
   error_field "message" (sent r) = Js.lookup "message" ps).
Proof.
  intros Hc Hok Htry _. unfold response_to.
  rewrite (chat_serve W req Hc Hok). unfold chat, try_catch. rewrite Htry.
  rewrite chat_catch_run. cbn [snd res statusCode sent error_field chat_error].
  cbn [Js.optget Js.lookup String.eqb Ascii.eqb Bool.eqb].
  repeat split.
  - intros H. apply or_truthy, H.
  - intros H. apply or_falsy, H.
  - eexists; reflexivity.
  - intros H. rewrite (or_truthy _ _ H). apply or_truthy, H.
  - intros H Hl. rewrite (or_falsy _ _ H). apply or_truthy, Hl.
Qed.

Lemma upstream_failure_witness :
  statusCode (response_to limiting_world hi_request) = Js.number 429 /\
  error_field "message" (sent (response_to limiting_world hi_request)) =
  Js.str "rate limited".
Proof.
  destruct (upstream_failure limiting_world hi_request rate_limited
              (called limiting_world hi_request initial))
    as [Hs [_ [_ [_ [_ [Hm _]]]]]].
  - reflexivity.
  - exists "s3cret"; split; reflexivity.
  - apply chat_try_rejected. reflexivity.
  - intros _. exists 429%Z. split; [lia | reflexivity].
  - split; [apply Hs | apply Hm]; reflexivity.
Defined.

(** *** A successful completion *)








(** *** Streaming *)

(** C6, as the code has it: a chat request with [stream] set to true (or
    to any truthy value) whose outbound call succeeds, handing back the
    upstream byte stream, is answered with the headers
    [Content-Type: text/event-stream], [Cache-Control: no-cache] and
    [Connection: keep-alive], and with the upstream chunks themselves, in
    order and unchanged; the call asked axios for a stream, so nothing was
    parsed. *)
Theorem stream_relay (W : World) (req : Request) (response : Js.value)
  (chunks : list string) :
  is_chat req = true ->
  authorized W req ->
  Js.truthy (Js.lookup "stream" (body req)) = true ->
  upstream W (chat_call W req) = Fulfilled response ->
  Js.optget response "data" = Js.stream chunks ->
  responseType (chat_call W req) = "stream" /\
  fst (serve W req) = Js.Normal tt /\
  response_to W req =
    {| statusCode := Js.number 200;
       headers := event_stream_headers;
       sent := StreamBody chunks |}.
Proof.
  intros Hc Hok Hstream Hup Hdata.
  assert (Hget : Js.get response "data" = Js.Normal (Js.stream chunks)).
  { destruct response; simpl in Hdata; try discriminate. simpl. rewrite Hdata. reflexivity. }
  split; [unfold chat_call; cbn [responseType]; rewrite Hstream; reflexivity|].
  unfold response_to. rewrite (chat_serve W req Hc Hok).
  unfold chat, try_catch, chat_try, bind at 1, axios_post. rewrite Hup, Hstream.
  unfold bind, res_setHeader, with_res, lift. cbn [res initial headers]. rewrite Hget.
  split; reflexivity.
Qed.

Lemma stream_relay_witness :
  response_to streaming_world streaming_request =
  {| statusCode := Js.number 200;
     headers := event_stream_headers;
     sent := StreamBody sse_chunks |}.
Proof.
  apply (stream_relay streaming_world streaming_request
           (Js.object [("status", Js.number 200); ("data", Js.stream sse_chunks)])
           sse_chunks);
    [reflexivity | exists "s3cret"; split; reflexivity | reflexivity | reflexivity
    | reflexivity].
Defined.

(** C6 as stated fails: a chat request with [stream: true] whose outbound
    call is rejected (here with a 429) gets the JSON error of the failure
    path; no event-stream header is set and no upstream bytes are relayed. *)
Lemma stream_relay_counterexample :
  Js.lookup "stream" (body streaming_request) = Js.boolean true /\
  is_chat streaming_request = true /\
  authorized limiting_stream_world streaming_request /\
  response_to limiting_stream_world streaming_request =
    {| statusCode := Js.number 429;
       headers := [];
       sent := JsonBody (chat_error (Js.number 429)
                           (Js.str "Request failed with status code 429")) |} /\
  ~ In ("Content-Type", "text/event-stream")
       (headers (response_to limiting_stream_world streaming_request)).
Proof.
  split; [reflexivity|]. split; [reflexivity|].
  split; [exists "s3cret"; split; reflexivity|].
  split; [reflexivity | intros []].
Qed.

(** *** The outbound call *)

(** Defaults replace every falsy value, not only a missing one: in the
    payload of an outbound call, [temperature], [max_tokens] and [stream]
    are the client's values when these are truthy, and 0.7, 2048 and false
    when they are falsy (absent, [null], [0], the empty string, [false]). *)
Theorem falsy_values_take_defaults (W : World) (req : Request) (c : AxiosCall)
  (field : string) (default : Js.value) :
  In c (calls_of W req) ->
  In (field, default) defaulted_fields ->
  (Js.truthy (Js.lookup field (body req)) = true ->
   Js.optget (data c) field = Js.lookup field (body req)) /\
  (Js.truthy (Js.lookup field (body req)) = false ->
   Js.optget (data c) field = default).
Proof.
  intros Hin Hf. rewrite (calls_are_chat_calls W req c Hin).
  cbn [chat_call data nimRequest].
  destruct Hf as [E | [E | [E | []]]]; injection E as <- <-;
    cbn [Js.optget Js.lookup String.eqb Ascii.eqb Bool.eqb];
    split; intros H; [apply or_truthy | apply or_falsy | apply or_truthy
                     | apply or_falsy | apply or_truthy | apply or_falsy]; exact H.
Qed.

Lemma falsy_values_take_defaults_witness :
  Js.optget (data (chat_call (demo_world no_upstream) cold_request)) "temperature" =
    Js.number 0.7 /\
  Js.optget (data (chat_call (demo_world no_upstream) cold_request)) "max_tokens" =
    Js.number 100.
Proof.
  split.
  - apply (falsy_values_take_defaults (demo_world no_upstream) cold_request
             (chat_call (demo_world no_upstream) cold_request)
             "temperature" (Js.number 0.7));
      [left; reflexivity | left; reflexivity | reflexivity].
  - apply (falsy_values_take_defaults (demo_world no_upstream) cold_request
             (chat_call (demo_world no_upstream) cold_request)
             "max_tokens" (Js.number 2048));
      [left; reflexivity | right; left; reflexivity | reflexivity].
Defined.

Lemma health_path_is_not_chat (req : Request) :
  path req = "/health" -> is_chat req = false.
Proof.
  intros Hp. unfold is_chat. rewrite Hp. apply andb_false_iff. right. reflexivity.
Qed.

(** Routes other than the chat route make no call. *)
Lemma quiet_routes_but_chat (W : World) (req : Request) :
  is_chat req = false -> quiet (routes W req).
Proof.
  intros Hc. unfold routes. rewrite Hc.
  destruct (is_health req); [apply quiet_health|].
  destruct (is_models req); [apply quiet_models | apply quiet_catch_all].
Qed.

(** The application calls upstream exactly when the request is an
    authenticated POST to the chat route: an unauthenticated request, or one
    for any other route, never causes an outbound call. *)
Theorem upstream_only_for_authorized_chat (W : World) (req : Request) :
  calls_of W req <> [] <-> authorized W req /\ is_chat req = true.
Proof.
  split.
  - intros Hcall. unfold calls_of in Hcall.
    destruct (is_preflight req) eqn:Hpre;
      [rewrite (serve_preflight W req Hpre) in Hcall; exfalso; apply Hcall; reflexivity|].
    unfold serve in Hcall. rewrite (app_not_preflight W req Hpre) in Hcall.
    destruct (is_chat req) eqn:Hc.
    + split; [|reflexivity].
      destruct (String.eqb_spec (path req) "/health") as [Hp|Hp].
      * rewrite (health_path_is_not_chat req Hp) in Hc. discriminate.
      * destruct (authenticate_cases W req (routes W req) Hp) as [[message E]|Hok];
          [|exact Hok].
        rewrite E, quiet_reject in Hcall. contradiction.
    + exfalso. apply Hcall.
      destruct (String.eqb_spec (path req) "/health") as [Hp|Hp].
      * rewrite (authenticate_exempt W req _ Hp).
        apply (quiet_routes_but_chat W req Hc).
      * destruct (authenticate_cases W req (routes W req) Hp) as [[message E]|Hok].
        -- rewrite E. apply quiet_reject.
        -- rewrite (authenticate_pass W req _ Hok).
           apply (quiet_routes_but_chat W req Hc).
  - intros [Hok Hc]. unfold calls_of. rewrite (chat_serve W req Hc Hok).
    rewrite chat_outbound. discriminate.
Qed.

(** Where an outbound call goes and how it is signed comes from the
    configuration alone.  The URL is the configured base followed by
    [/chat/completions], the default base standing in for an unset or empty
    one; the Authorization header carries the upstream key, and the text
    ["Bearer undefined"] when no key is configured; the client's own token
    is not forwarded. *)
Theorem upstream_target_and_key (W : World) (req : Request) (c : AxiosCall) :
  In c (calls_of W req) ->
  (process_env W "NIM_API_BASE" = None \/ process_env W "NIM_API_BASE" = Some "" ->
   url c = "https://integrate.api.nvidia.com/v1/chat/completions") /\
  (forall base, process_env W "NIM_API_BASE" = Some base -> base <> "" ->
   url c = base ++ "/chat/completions") /\
  (forall key, process_env W "NIM_API_KEY" = Some key ->
   config_headers c = [("Authorization", "Bearer " ++ key);
                       ("Content-Type", "application/json")]) /\
  (process_env W "NIM_API_KEY" = None ->
   config_headers c = [("Authorization", "Bearer undefined");
                       ("Content-Type", "application/json")]).
Proof.
  intros Hin. rewrite (calls_are_chat_calls W req c Hin).
  unfold chat_call, NIM_API_BASE, NIM_API_KEY. cbn [url config_headers].
  split; [|split; [|split]].
  - intros [-> | ->]; reflexivity.
  - intros base -> Hne. cbn [env_or].
    destruct (String.eqb_spec base ""); [contradiction | reflexivity].
  - intros key ->. reflexivity.
  - intros ->. reflexivity.
Qed.

Lemma upstream_target_and_key_witness :
  calls_of keyless_world hi_request =
  [ {| url := "https://integrate.api.nvidia.com/v1/chat/completions";
       data := nimRequest hi_messages Js.undefined Js.undefined Js.undefined;
       config_headers := [("Authorization", "Bearer undefined");
                          ("Content-Type", "application/json")];
       responseType := "json" |} ] /\
  url (chat_call keyless_world hi_request) =
    "https://integrate.api.nvidia.com/v1/chat/completions" /\
  config_headers (chat_call keyless_world hi_request) =
    [("Authorization", "Bearer undefined"); ("Content-Type", "application/json")].
Proof.
  split; [reflexivity|].
  destruct (upstream_target_and_key keyless_world hi_request
              (chat_call keyless_world hi_request))
    as [Hu [_ [_ Hk]]]; [left; reflexivity|].
  split; [apply Hu; right; reflexivity | apply Hk; reflexivity].
Defined.

(** The transport mode asked of axios always agrees with the [stream] flag
    of the payload it carries: [responseType] is ['stream'] when the flag
    sent upstream is truthy and ['json'] when it is falsy. *)
Theorem response_type_follows_stream_flag (W : World) (req : Request) (c : AxiosCall) :
  In c (calls_of W req) ->
  (Js.truthy (Js.optget (data c) "stream") = true /\ responseType c = "stream") \/
  (Js.optget (data c) "stream" = Js.boolean false /\ responseType c = "json").
Proof.
  intros Hin. rewrite (calls_are_chat_calls W req c Hin).
  unfold chat_call, nimRequest. cbn [data responseType].
  cbn [Js.optget Js.lookup String.eqb Ascii.eqb Bool.eqb].
  destruct (Js.truthy (Js.lookup "stream" (body req))) eqn:Hs.
  - left. rewrite (or_truthy _ _ Hs). split; [exact Hs | reflexivity].
  - right. rewrite (or_falsy _ _ Hs). split; reflexivity.
Qed.

Lemma response_type_follows_stream_flag_witness :
  (Js.truthy (Js.optget (data (chat_call streaming_world streaming_request)) "stream") = true
   /\ responseType (chat_call streaming_world streaming_request) = "stream") \/
  (Js.optget (data (chat_call streaming_world streaming_request)) "stream" =
     Js.boolean false
   /\ responseType (chat_call streaming_world streaming_request) = "json").
Proof.
  apply (response_type_follows_stream_flag streaming_world streaming_request).
  left. reflexivity.
Defined.

(** *** What can be thrown *)

Lemma TypeError_is_TypeError (message : string) :
  message <> "" -> is_TypeError (Js.TypeError message).
Proof. intros H. exists message. split; [exact H | reflexivity]. Qed.

Lemma append_not_empty (s t : string) : t <> "" -> s ++ t <> "".
Proof. intros H. destruct s; simpl; [exact H | discriminate]. Qed.

Lemma get_throws (v : Js.value) (k : string) (e : Js.value) :
  Js.get v k = Js.Throw e -> is_TypeError e.
Proof.
  destruct v; simpl; intros H; try discriminate; injection H as <-;
    apply TypeError_is_TypeError; discriminate.
Qed.

(** [join] on a non-empty array: the first element, then the others. *)
Lemma to_string_cons (nts : float -> string) (x : Js.value) (rest : list Js.value) :
  Js.to_string nts (Js.array (x :: rest)) =
  Js.bind (match x with
           | Js.undefined | Js.null => Js.Normal ""
           | _ => Js.to_string nts x
           end)
    (fun sx =>
       match rest with
       | [] => Js.Normal sx
       | _ :: _ =>
           Js.bind (Js.to_string nts (Js.array rest))
             (fun sr => Js.Normal (sx ++ "," ++ sr))
       end).
Proof. reflexivity. Qed.

(** Induction on values, with the elements of arrays and the property
    values of objects as sub-values. *)
Lemma value_nested_ind (P : Js.value -> Prop)
  (Hundefined : P Js.undefined)
  (Hnull : P Js.null)
  (Hboolean : forall b, P (Js.boolean b))
  (Hnumber : forall x, P (Js.number x))
  (Hstr : forall s, P (Js.str s))
  (Harray : forall l, Forall P l -> P (Js.array l))
  (Hobject : forall ps, Forall (fun p => P (snd p)) ps -> P (Js.object ps))
  (Hstream : forall chunks, P (Js.stream chunks)) :
  forall v, P v.
Proof.
  exact
    (fix F (v : Js.value) : P v :=
       match v with
       | Js.undefined => Hundefined
       | Js.null => Hnull
       | Js.boolean b => Hboolean b
       | Js.number x => Hnumber x
       | Js.str s => Hstr s
       | Js.array l =>
           Harray l
             ((fix G (l : list Js.value) : Forall P l :=
                 match l with
                 | [] => Forall_nil P
                 | x :: rest => Forall_cons x (F x) (G rest)
                 end) l)
       | Js.object ps =>
           Hobject ps
             ((fix G (ps : list (string * Js.value)) :
                 Forall (fun p => P (snd p)) ps :=
                 match ps with
                 | [] => Forall_nil _
                 | p :: rest => Forall_cons p (F (snd p)) (G rest)
                 end) ps)
       | Js.stream chunks => Hstream chunks
       end).
Qed.

(** The only failure of ToString is the one of an object that has its own
    [toString] property. *)
Lemma to_string_throws (nts : float -> string) (v : Js.value) :
  forall e, Js.to_string nts v = Js.Throw e -> is_TypeError e.
Proof.
  induction v as [| |b|x|s|l IHl|ps _|chunks] using value_nested_ind; intros e;
    try (simpl; discriminate).
  - destruct b; simpl; discriminate.
  - revert e. induction IHl as [|x rest Hx _ IHrest]; intros e; [simpl; discriminate|].
    rewrite to_string_cons.
    destruct (match x with
              | Js.undefined | Js.null => Js.Normal ""
              | _ => Js.to_string nts x
              end) as [sx|ex] eqn:Ex; cbn [Js.bind].
    + destruct rest as [|y rest']; [discriminate|].
      destruct (Js.to_string nts (Js.array (y :: rest'))) as [sr|er] eqn:Er;
        cbn [Js.bind]; [discriminate|].
      intros H. injection H as <-. apply IHrest. reflexivity.
    + intros H. injection H as <-.
      destruct x; try discriminate; apply (Hx _ Ex).
  - simpl. destruct (Js.has_own "toString" ps); [|discriminate].
    intros H. injection H as <-. apply TypeError_is_TypeError. discriminate.
Qed.

Lemma add_throws (nts : float -> string) (a b e : Js.value) :
  Js.add nts a b = Js.Throw e -> is_TypeError e.
Proof.
  unfold Js.add. destruct (Js.is_numeric_primitive a && Js.is_numeric_primitive b);
    [discriminate|].
  destruct (Js.to_string nts a) as [sa|ea] eqn:Ea; cbn [Js.bind].
  - destruct (Js.to_string nts b) as [sb|eb] eqn:Eb; cbn [Js.bind]; [discriminate|].
    intros H. injection H as <-. apply (to_string_throws nts b _ Eb).
  - intros H. injection H as <-. apply (to_string_throws nts a _ Ea).
Qed.

(** Reshaping a choice fails with a [TypeError] only. *)
Lemma translate_choice_throws (W : World) (choice e : Js.value) :
  translate_choice W choice = Js.Throw e -> is_TypeError e.
Proof.
  unfold translate_choice.
  destruct (Js.get choice "message") as [message|e1] eqn:E1; cbn [Js.bind];
    [|intros H; injection H as <-; apply (get_throws _ _ _ E1)].
  match goal with
  | |- Js.bind ?c _ = _ -> _ => destruct c as [content|e2] eqn:E2; cbn [Js.bind]
  end.
  - destruct (Js.get message "role") as [role|e3] eqn:E3; cbn [Js.bind]; [discriminate|].
    intros H; injection H as <-; apply (get_throws _ _ _ E3).
  - intros H; injection H as <-.
    destruct (Js.truthy (Js.optget message "reasoning_content")); [|discriminate].
    match type of E2 with
    | Js.bind ?c _ = _ => destruct c as [rest|e4] eqn:E4; cbn [Js.bind] in E2
    end.
    + apply (add_throws _ _ _ _ E2).
    + injection E2 as <-.
      destruct (Js.truthy (Js.or (Js.optget message "content") (Js.str "")));
        [apply (add_throws _ _ _ _ E4) | discriminate].
Qed.

Lemma mapM_throws {A B} (f : A -> Js.completion B) (P : Js.value -> Prop) :
  (forall x e, f x = Js.Throw e -> P e) ->
  forall l e, mapM f l = Js.Throw e -> P e.
Proof.
  intros Hf. induction l as [|x l IH]; intros e; cbn [mapM]; [discriminate|].
  destruct (f x) as [y|ex] eqn:Ex; cbn [Js.bind].
  - destruct (mapM f l) as [ys|el]; cbn [Js.bind]; [discriminate|].
    intros H; injection H as <-. apply IH. reflexivity.
  - intros H; injection H as <-. apply (Hf x _ Ex).
Qed.

(** One element that fails makes the whole [map] fail. *)
Lemma mapM_one_throws {A B} (f : A -> Js.completion B) (l : list A) (x : A) :
  In x l -> (exists e, f x = Js.Throw e) -> exists e, mapM f l = Js.Throw e.
Proof.
  intros Hin [e He]. induction l as [|y l IH]; [contradiction|].
  cbn [mapM]. destruct (f y) as [b|ey] eqn:Ey; cbn [Js.bind].
  - destruct Hin as [->|Hin]; [congruence|].
    destruct (IH Hin) as [e' ->]. exists e'. reflexivity.
  - exists ey. reflexivity.
Qed.

Lemma array_map_throws (W : World) (what : string) (xs e : Js.value) :
  array_map what (translate_choice W) xs = Js.Throw e -> is_TypeError e.
Proof.
  destruct xs; simpl; intros H; try (injection H as <-; apply TypeError_is_TypeError;
    try discriminate; apply append_not_empty; discriminate).
  destruct (mapM (translate_choice W) elements) as [ys|el] eqn:El; cbn [Js.bind] in H;
    [discriminate|].
  injection H as <-.
  apply (mapM_throws (translate_choice W) is_TypeError (translate_choice_throws W) _ _ El).
Qed.

(** Building the envelope fails with a [TypeError] only. *)
Lemma envelope_at_throws (W : World) (model response : Js.value) (t1 t2 : Z)
  (e : Js.value) :
  envelope_at W model response t1 t2 = Js.Throw e -> is_TypeError e.
Proof.
  unfold envelope_at.
  destruct (Js.get response "data") as [d|e1] eqn:E1; cbn [Js.bind];
    [|intros H; injection H as <-; apply (get_throws _ _ _ E1)].
  destruct (Js.get d "choices") as [cs|e2] eqn:E2; cbn [Js.bind];
    [|intros H; injection H as <-; apply (get_throws _ _ _ E2)].
  destruct (array_map "response.data.choices" (translate_choice W) cs) as [ts|e3] eqn:E3;
    cbn [Js.bind]; [discriminate|].
  intros H; injection H as <-. apply (array_map_throws _ _ _ _ E3).
Qed.

(** [openaiResponse] reads the clock twice and is otherwise a function of
    its arguments. *)
Lemma openaiResponse_run (W : World) (model response : Js.value) (st : State) :
  openaiResponse W model response st =
  (envelope_at W model response (clock W (ticks st)) (clock W (S (ticks st))),
   stamped st).
Proof.
  unfold openaiResponse, envelope_at, bind, Date_now, lift, ret, stamped.
  cbn [ticks res outbound].
  destruct (Js.get response "data") as [d|e1]; cbn [Js.bind]; [|reflexivity].
  destruct (Js.get d "choices") as [cs|e2]; cbn [Js.bind]; [|reflexivity].
  destruct (array_map "response.data.choices" (translate_choice W) cs) as [ts|e3];
    reflexivity.
Qed.

(** *** How the chat handler ends *)

(** With an error object in hand, the [catch] block answers. *)
Lemma chat_catch_answers (e : Js.value) (st : State) :
  e <> Js.undefined -> e <> Js.null ->
  let status := Js.or (Js.optget (Js.optget e "response") "status") (Js.number 500) in
  let text :=
    Js.optget (Js.optget (Js.optget (Js.optget e "response") "data") "error") "message" in
  chat_catch e st =
  (Js.Normal tt,
   {| res := {| statusCode := status;
                headers := headers (res st);
                sent := JsonBody
                          (chat_error status
                             (Js.or (Js.or text (Js.optget e "message"))
                                (Js.str "Internal server error"))) |};
      ticks := ticks st;
      outbound := outbound st |}).
Proof. intros Hu Hn. destruct e; try contradiction; reflexivity. Qed.

(** Without one ([undefined] or [null] was thrown), the [catch] block
    itself fails on [error.message] and nothing is sent. *)
Lemma chat_catch_fails (e : Js.value) (st : State) :
  e = Js.undefined \/ e = Js.null ->
  exists e', chat_catch e st = (Js.Throw e', st).
Proof. intros [-> | ->]; eexists; reflexivity. Qed.

(** The three ways the chat handler ends: in the [catch] block, with the
    error the outbound call was rejected with or with a [TypeError] and
    nothing sent yet; having piped the upstream stream; or having sent the
    envelope. *)
Lemma chat_outcome (W : World) (req : Request) (st : State) :
  sent (res st) = NoBody ->
  (exists e st',
     chat W req st = chat_catch e st' /\ sent (res st') = NoBody /\
     (upstream W (chat_call W req) = Rejected e \/ is_TypeError e)) \/
  (exists chunks st',
     chat W req st = (Js.Normal tt, st') /\ sent (res st') = StreamBody chunks /\
     Js.truthy (Js.lookup "stream" (body req)) = true) \/
  (exists env st',
     chat W req st = (Js.Normal tt, st') /\ sent (res st') = JsonBody env /\
     statusCode (res st') = statusCode (res st) /\
     Js.truthy (Js.lookup "stream" (body req)) = false /\
     envelope_at W (Js.lookup "model" (body req))
       match upstream W (chat_call W req) with
       | Fulfilled response => response
       | Rejected _ => Js.undefined
       end (clock W (ticks st)) (clock W (S (ticks st))) = Js.Normal env).
Proof.
  intros Hsent. unfold chat, try_catch, chat_try. unfold bind at 1. unfold axios_post.
  destruct (upstream W (chat_call W req)) as [response|e].
  - destruct (Js.truthy (Js.lookup "stream" (body req))) eqn:Hstream.
    + unfold bind, res_setHeader, with_res, lift. cbn [res statusCode headers sent].
      destruct (Js.get response "data") as [d|e1] eqn:E1.
      * destruct d; cbn [pipe throw with_res];
          try (left; eexists; eexists; split; [reflexivity|]; split; [exact Hsent|];
               right; apply TypeError_is_TypeError; discriminate).
        right; left. eexists; eexists. split; [reflexivity|]. split; reflexivity.
      * left. eexists; eexists. split; [reflexivity|]. split; [exact Hsent|].
        right. apply (get_throws _ _ _ E1).
    + unfold bind. rewrite openaiResponse_run. cbn [ticks].
      destruct (envelope_at W (Js.lookup "model" (body req)) response
                  (clock W (ticks st)) (clock W (S (ticks st)))) as [env|e1] eqn:E1.
      * right; right. eexists; eexists. split; [reflexivity|].
        repeat split.
      * left. eexists; eexists. split; [reflexivity|]. split; [exact Hsent|].
        right. apply (envelope_at_throws _ _ _ _ _ _ E1).
  - left. exists e. eexists. split; [reflexivity|]. split; [exact Hsent | left; reflexivity].
Qed.

Lemma envelope_at_shape (W : World) (model response : Js.value) (t1 t2 : Z)
  (env : Js.value) :
  envelope_at W model response t1 t2 = Js.Normal env ->
  exists choices usage,
    env = Js.object [("id", Js.str ("chatcmpl-" ++ Js.string_of_Z t1));
                     ("object", Js.str "chat.completion");
                     ("created", Js.number (Js.of_Z (t2 / 1000)));
                     ("model", model);
                     ("choices", Js.array choices);
                     ("usage", usage)].
Proof.
  unfold envelope_at.
  destruct (Js.get response "data") as [d|e1]; cbn [Js.bind]; [|discriminate].
  destruct (Js.get d "choices") as [cs|e2]; cbn [Js.bind]; [|discriminate].
  destruct cs; cbn [array_map]; try discriminate.
  destruct (mapM (translate_choice W) elements) as [ys|el]; cbn [Js.bind];
    [|discriminate].
  intros H. injection H as <-. eexists; eexists; reflexivity.
Qed.

(** The routes never answer with an authentication error. *)
Lemma routes_type (W : World) (req : Request) :
  error_field "type" (sent (res (snd (routes W req initial)))) <>
  Js.str "authentication_error".
Proof.
  unfold routes.
  destruct (is_health req); [discriminate|].
  destruct (is_models req); [discriminate|].
  destruct (is_chat req); [|discriminate].
  destruct (chat_outcome W req initial eq_refl)
    as [[e [st' [-> [Hs _]]]] | [[chunks [st' [-> [Hs _]]]] | [env [st' [-> [Hs [_ [_ He]]]]]]]].
  - destruct e;
      try (rewrite chat_catch_answers by discriminate; discriminate);
      cbn; rewrite Hs; discriminate.
  - cbn [snd]. rewrite Hs. discriminate.
  - cbn [snd]. rewrite Hs.
    destruct (envelope_at_shape _ _ _ _ _ _ He) as [cs [u ->]]. discriminate.
Qed.

(** The type ["authentication_error"] is the mark of the middleware: a
    response is a 401 of that type exactly when the request is not an
    OPTIONS request (those [cors()] answers), is for a path other than
    [/health], and does not carry the configured secret.  An upstream 401
    relayed by the chat handler has another type. *)
Theorem authentication_error_iff_unauthorized (W : World) (req : Request) :
  is_authentication_error (response_to W req) <->
  is_preflight req = false /\ path req <> "/health" /\ ~ authorized W req.
Proof.
  unfold response_to. split.
  - destruct (is_preflight req) eqn:Hpre.
    + rewrite (serve_preflight W req Hpre). intros [_ [[v Hv] _]]. discriminate Hv.
    + unfold serve. rewrite (app_not_preflight W req Hpre). intros [_ [_ Ht]].
      split; [reflexivity|].
      destruct (String.eqb_spec (path req) "/health") as [Hp|Hp].
      * rewrite (authenticate_exempt W req _ Hp) in Ht.
        exfalso. exact (routes_type W req Ht).
      * split; [exact Hp|]. intros Hok.
        rewrite (authenticate_pass W req _ Hok) in Ht.
        exact (routes_type W req Ht).
  - intros [Hpre [Hp Hno]]. unfold serve. rewrite (app_not_preflight W req Hpre).
    destruct (authenticate_cases W req (routes W req) Hp) as [[message ->]|Hok].
    + apply reject_is_authentication_error.
    + contradiction.
Qed.

Lemma is_TypeError_not_nullish (e : Js.value) :
  is_TypeError e -> e <> Js.undefined /\ e <> Js.null.
Proof. intros [message [_ ->]]. split; discriminate. Qed.

(** Every request whose outbound call settles gets an answer.  Provided
    the call, if one is made, settles ([upstream] gives how) and a rejection
    carries an error value (never [undefined] or [null]) whose response
    status, if it has one, is an HTTP status, serving any request completes
    without an uncaught exception and sends a response: a JSON body, the
    piped stream (taken to end normally), or the empty 204 of a preflight.
    A call that never settles is outside the model; the handler then waits
    for ever. *)
Theorem every_request_is_answered (W : World) (req : Request) :
  (forall call e, upstream W call = Rejected e ->
     e <> Js.undefined /\ e <> Js.null /\
     (Js.truthy (relayed_status e) = true -> http_status (relayed_status e))) ->
  fst (serve W req) = Js.Normal tt /\ answered (response_to W req).
Proof.
  intros Hup. unfold response_to.
  destruct (is_preflight req) eqn:Hpre;
    [rewrite (serve_preflight W req Hpre); split; [reflexivity | right; right; reflexivity]|].
  unfold serve. rewrite (app_not_preflight W req Hpre).
  assert (Hrej : forall message,
             fst (reject message initial) = Js.Normal tt /\
             answered (res (snd (reject message initial)))).
  { intros message. rewrite reject_run. split; [reflexivity|]. left. eexists; reflexivity. }
  assert (Hroutes : fst (routes W req initial) = Js.Normal tt /\
                    answered (res (snd (routes W req initial)))).
  { unfold routes.
    destruct (is_health req); [split; [reflexivity | left; eexists; reflexivity]|].
    destruct (is_models req); [split; [reflexivity | left; eexists; reflexivity]|].
    destruct (is_chat req); [|split; [reflexivity | left; eexists; reflexivity]].
    destruct (chat_outcome W req initial eq_refl)
      as [[e [st' [-> [_ He]]]] | [[chunks [st' [-> [Hs _]]]] | [env [st' [-> [Hs _]]]]]].
    - assert (Hne : e <> Js.undefined /\ e <> Js.null).
      { destruct He as [He|He];
          [destruct (Hup _ _ He) as [Hu [Hn _]]; split; assumption
          | apply is_TypeError_not_nullish, He]. }
      destruct Hne as [Hu Hn]. rewrite (chat_catch_answers e st' Hu Hn).
      split; [reflexivity | left; eexists; reflexivity].
    - split; [reflexivity | right; left; exists chunks; exact Hs].
    - split; [reflexivity | left; exists env; exact Hs]. }
  destruct (String.eqb_spec (path req) "/health") as [Hp|Hp].
  - rewrite (authenticate_exempt W req _ Hp). exact Hroutes.
  - destruct (authenticate_cases W req (routes W req) Hp) as [[message ->]|Hok].
    + apply Hrej.
    + rewrite (authenticate_pass W req _ Hok). exact Hroutes.
Qed.

Lemma every_request_is_answered_witness :
  fst (serve limiting_world hi_request) = Js.Normal tt /\
  answered (response_to limiting_world hi_request).
Proof.
  apply (every_request_is_answered limiting_world hi_request).
  intros call e H. injection H as <-.
  split; [discriminate|]. split; [discriminate|].
  intros _. exists 429%Z. split; [lia | reflexivity].
Defined.

(** *** Answers that cannot be translated *)

(** The chat handler on a fulfilled, non-streaming call: the envelope, or
    the [catch] block with what building it threw. *)
Lemma chat_fulfilled_json (W : World) (req : Request) (response : Js.value) :
  is_chat req = true ->
  authorized W req ->
  Js.truthy (Js.lookup "stream" (body req)) = false ->
  upstream W (chat_call W req) = Fulfilled response ->
  serve W req =
  match envelope_at W (Js.lookup "model" (body req)) response (clock W 0) (clock W 1) with
  | Js.Normal env =>
      (Js.Normal tt,
       {| res := {| statusCode := Js.number 200; headers := []; sent := JsonBody env |};
          ticks := 2;
          outbound := [chat_call W req] |})
  | Js.Throw e => chat_catch e (stamped (called W req initial))
  end.
Proof.
  intros Hc Hok Hstream Hup. rewrite (chat_serve W req Hc Hok).
  unfold chat, try_catch, chat_try. unfold bind at 1. unfold axios_post.
  rewrite Hup, Hstream. unfold bind. rewrite openaiResponse_run. cbn [ticks initial].
  destruct (envelope_at W (Js.lookup "model" (body req)) response (clock W 0) (clock W 1));
    reflexivity.
Qed.

Lemma catch_of_TypeError (e : Js.value) (st : State) :
  is_TypeError e ->
  fst (chat_catch e st) = Js.Normal tt /\
  is_translation_failure (res (snd (chat_catch e st))).
Proof.
  intros [message [Hne ->]]. unfold Js.TypeError. rewrite chat_catch_run.
  cbn [fst snd res]. split; [reflexivity|]. split; [reflexivity|].
  exists message. split; [exact Hne|].
  cbn [sent Js.lookup String.eqb Ascii.eqb Bool.eqb Js.optget].
  apply truthy_str in Hne.
  rewrite (or_falsy Js.undefined (Js.number 500) eq_refl).
  rewrite (or_falsy Js.undefined (Js.str message) eq_refl).
  rewrite (or_truthy (Js.str message) _ Hne). reflexivity.
Qed.

(** Once the outbound call of a non-streaming chat request has succeeded,
    the answer is either 200 with a completion envelope naming the client's
    model, or 500 with an ["invalid_request_error"] whose code is 500 and
    whose message is the engine's error text: whatever status the upstream
    replied with is not relayed on this path. *)
Theorem fulfilled_answer_is_200_or_500 (W : World) (req : Request)
  (response : Js.value) :
  is_chat req = true ->
  authorized W req ->
  Js.truthy (Js.lookup "stream" (body req)) = false ->
  upstream W (chat_call W req) = Fulfilled response ->
  (statusCode (response_to W req) = Js.number 200 /\
   exists env,
     sent (response_to W req) = JsonBody env /\
     Js.optget env "object" = Js.str "chat.completion" /\
     Js.optget env "model" = Js.lookup "model" (body req)) \/
  is_translation_failure (response_to W req).
Proof.
  intros Hc Hok Hstream Hup. unfold response_to.
  rewrite (chat_fulfilled_json W req response Hc Hok Hstream Hup).
  destruct (envelope_at W (Js.lookup "model" (body req)) response (clock W 0) (clock W 1))
    as [env|e] eqn:E.
  - left. split; [reflexivity|]. exists env. split; [reflexivity|].
    destruct (envelope_at_shape _ _ _ _ _ _ E) as [cs [u ->]]. split; reflexivity.
  - right. apply catch_of_TypeError. apply (envelope_at_throws _ _ _ _ _ _ E).
Qed.

Lemma fulfilled_answer_is_200_or_500_witness :
  (statusCode (response_to (json_world (Js.str "")) hi_request) = Js.number 200 /\
   exists env,
     sent (response_to (json_world (Js.str "")) hi_request) = JsonBody env /\
     Js.optget env "object" = Js.str "chat.completion" /\
     Js.optget env "model" = Js.lookup "model" (body hi_request)) \/
  is_translation_failure (response_to (json_world (Js.str "")) hi_request).
Proof.
  apply (fulfilled_answer_is_200_or_500 (json_world (Js.str "")) hi_request
           (Js.object [("status", Js.number 200); ("data", Js.str "")]));
    [reflexivity | exists "s3cret"; split; reflexivity | reflexivity | reflexivity].
Defined.

Lemma translate_choice_without_message (W : World) (choice : Js.value) :
  Js.optget choice "message" = Js.undefined \/ Js.optget choice "message" = Js.null ->
  exists e, translate_choice W choice = Js.Throw e.
Proof.
  intros Hm. unfold translate_choice.
  destruct choice; try (eexists; reflexivity);
    cbn [Js.get Js.bind]; destruct Hm as [-> | ->]; eexists; reflexivity.
Qed.

(** A malformed answer fails as a whole.  When the outbound call of a
    non-streaming chat request succeeds but [data.choices] is not an array,
    or one of the choices has no message, the response is the 500 of a
    failed translation: no envelope is sent, not even for the choices that
    were well formed. *)
Theorem malformed_answer_is_500 (W : World) (req : Request) (response : Js.value)
  (dps : list (string * Js.value)) :
  is_chat req = true ->
  authorized W req ->
  Js.truthy (Js.lookup "stream" (body req)) = false ->
  upstream W (chat_call W req) = Fulfilled response ->
  Js.optget response "data" = Js.object dps ->
  (forall l, Js.lookup "choices" dps <> Js.array l) \/
  (exists l choice,
     Js.lookup "choices" dps = Js.array l /\ In choice l /\
     (Js.optget choice "message" = Js.undefined \/
      Js.optget choice "message" = Js.null)) ->
  fst (serve W req) = Js.Normal tt /\ is_translation_failure (response_to W req).
Proof.
  intros Hc Hok Hstream Hup Hdata Hbad. unfold response_to.
  rewrite (chat_fulfilled_json W req response Hc Hok Hstream Hup).
  assert (Hthrow : exists e,
             envelope_at W (Js.lookup "model" (body req)) response
               (clock W 0) (clock W 1) = Js.Throw e).
  { unfold envelope_at.
    assert (Hget : Js.get response "data" = Js.Normal (Js.object dps)).
    { destruct response; simpl in Hdata; try discriminate. simpl. rewrite Hdata.
      reflexivity. }
    rewrite Hget. cbn [Js.bind Js.get Js.optget].
    destruct Hbad as [Hno | [l [choice [Hl [Hin Hm]]]]].
    - destruct (Js.lookup "choices" dps) as [| | | | |l| |] eqn:El;
        try (eexists; reflexivity).
      exfalso. apply (Hno l). reflexivity.
    - rewrite Hl. cbn [array_map].
      destruct (mapM_one_throws (translate_choice W) l choice Hin
                  (translate_choice_without_message W choice Hm)) as [e ->].
      exists e. reflexivity. }
  destruct Hthrow as [e He]. rewrite He.
  apply catch_of_TypeError. apply (envelope_at_throws _ _ _ _ _ _ He).
Qed.

Lemma malformed_answer_is_500_witness :
  is_translation_failure (response_to (json_world (Js.object [])) hi_request) /\
  is_translation_failure
    (response_to
       (json_world (Js.object [("choices", Js.array [plain_choice; bare_choice])]))
       hi_request).
Proof.
  split.
  - apply (malformed_answer_is_500 (json_world (Js.object [])) hi_request
             (Js.object [("status", Js.number 200); ("data", Js.object [])]) []);
      [reflexivity | exists "s3cret"; split; reflexivity | reflexivity | reflexivity
      | reflexivity | left; discriminate].
  - apply (malformed_answer_is_500
             (json_world (Js.object [("choices", Js.array [plain_choice; bare_choice])]))
             hi_request
             (Js.object [("status", Js.number 200);
                         ("data", Js.object [("choices",
                                              Js.array [plain_choice; bare_choice])])])
             [("choices", Js.array [plain_choice; bare_choice])]);
      [reflexivity | exists "s3cret"; split; reflexivity | reflexivity | reflexivity
      | reflexivity |].
    right. exists [plain_choice; bare_choice], bare_choice.
    split; [reflexivity|]. split; [right; left; reflexivity | left; reflexivity].
Defined.

(** The health exemption is by path alone.  A request for [/health] with a
    method the health route does not answer (a POST, say; not OPTIONS,
    which [cors()] answers) still skips the bearer check, and so reaches the
    catch-all: it gets the 404 of an unknown endpoint without presenting any
    credentials. *)
Theorem health_path_skips_auth_for_any_method (W : World) (req : Request) :
  is_preflight req = false ->
  path req = "/health" ->
  get_handles (method req) = false ->
  serve W req =
  (Js.Normal tt,
   {| res := {| statusCode := Js.number 404; headers := [];
                sent := JsonBody (not_found_body "/health") |};
      ticks := 0;
      outbound := [] |}).
Proof.
  intros Hpre Hp Hm. unfold serve. rewrite (app_not_preflight W req Hpre).
  rewrite (authenticate_exempt W req _ Hp).
  unfold routes, is_health, is_models. rewrite Hm.
  rewrite (health_path_is_not_chat req Hp). cbn [andb].
  unfold catch_all. rewrite Hp. reflexivity.
Qed.

Lemma health_path_skips_auth_for_any_method_witness :
  statusCode (response_to unconfigured_world (request "POST" "/health" None [])) =
  Js.number 404.
Proof.
  unfold response_to.
  rewrite (health_path_skips_auth_for_any_method unconfigured_world
             (request "POST" "/health" None []) eq_refl eq_refl eq_refl).
  reflexivity.
Defined.

(** *** The content of a reshaped choice *)

Lemma add_to_str (nts : float -> string) (a : Js.value) (t : string) (v : Js.value) :
  Js.add nts a (Js.str t) = Js.Normal v -> exists s, v = Js.str s.
Proof.
  unfold Js.add. rewrite andb_false_r.
  destruct (Js.to_string nts a) as [sa|ea]; cbn [Js.bind Js.to_string]; [|discriminate].
  intros H. injection H as <-. eexists; reflexivity.
Qed.

Lemma add_str_to (nts : float -> string) (s : string) (b v : Js.value) :
  Js.add nts (Js.str s) b = Js.Normal v -> exists t, v = Js.str t.
Proof.
  unfold Js.add. cbn [Js.is_numeric_primitive andb Js.to_string Js.bind].
  destruct (Js.to_string nts b) as [sb|eb]; cbn [Js.bind]; [|discriminate].
  intros H. injection H as <-. eexists; reflexivity.
Qed.

Lemma or_empty_not_nullish (v : Js.value) :
  Js.or v (Js.str "") <> Js.undefined /\ Js.or v (Js.str "") <> Js.null.
Proof.
  unfold Js.or. destruct (Js.truthy v) eqn:Hv; [|split; discriminate].
  destruct v; simpl in Hv; split; discriminate.
Qed.

(** Whatever the upstream message held, the content of a reshaped choice
    is never [undefined] nor [null]; and when the message had a truthy
    [reasoning_content], the content is a string. *)
Theorem translated_content_is_never_null (W : World) (choice translated : Js.value) :
  translate_choice W choice = Js.Normal translated ->
  (content_of translated <> Js.undefined /\ content_of translated <> Js.null) /\
  (Js.truthy (Js.optget (Js.optget choice "message") "reasoning_content") = true ->
   exists s, content_of translated = Js.str s).
Proof.
  unfold translate_choice.
  destruct (Js.get choice "message") as [message|e1] eqn:E1; cbn [Js.bind]; [|discriminate].
  assert (Hm : Js.optget choice "message" = message).
  { destruct choice; simpl in E1; try discriminate; injection E1 as <-; reflexivity. }
  rewrite Hm.
  destruct (Js.truthy (Js.optget message "reasoning_content")) eqn:Hrc.
  - match goal with
    | |- Js.bind (Js.bind ?c _) _ = _ -> _ => destruct c as [rest|e2] eqn:E2
    end; cbn [Js.bind]; [|discriminate].
    assert (Hrest : exists t, rest = Js.str t).
    { destruct (Js.truthy (Js.or (Js.optget message "content") (Js.str ""))).
      - apply (add_str_to _ _ _ _ E2).
      - injection E2 as <-. eexists; reflexivity. }
    destruct Hrest as [t ->].
    destruct (Js.add (number_to_string W) (Js.optget message "reasoning_content")
                (Js.str t)) as [content|e3] eqn:E3; cbn [Js.bind]; [|discriminate].
    destruct (add_to_str _ _ _ _ E3) as [s ->].
    destruct (Js.get message "role") as [role|e4]; cbn [Js.bind]; [|discriminate].
    intros H. injection H as <-. cbn.
    split; [split; discriminate | intros _; eexists; reflexivity].
  - cbn [Js.bind].
    destruct (Js.get message "role") as [role|e4]; cbn [Js.bind]; [|discriminate].
    intros H. injection H as <-.
    split; [apply or_empty_not_nullish | discriminate].
Qed.

Lemma translated_content_is_never_null_witness :
  content_of (reshaped (message_choice [("role", Js.str "assistant");
                                        ("content", Js.null)]) (Js.str "")) <>
  Js.null.
Proof.
  apply (translated_content_is_never_null (demo_world no_upstream)
           (message_choice [("role", Js.str "assistant"); ("content", Js.null)])
           (reshaped (message_choice [("role", Js.str "assistant");
                                      ("content", Js.null)]) (Js.str ""))).
  reflexivity.
Defined.

(** *** Failures always say something *)

Lemma truthy_or_default (a b : Js.value) :
  Js.truthy b = true -> Js.truthy (Js.or a b) = true.
Proof. intros Hb. unfold Js.or. destruct (Js.truthy a) eqn:Ha; assumption. Qed.

(** However the [try] block of the chat handler fails, provided the
    status the error carries, if any, is an HTTP status (so that the
    response can be sent), the error response has a usable status and text:
    the status is truthy (the relayed upstream status, or 500), the body's
    [code] repeats it, and the [message] is truthy, ["Internal server
    error"] standing in when neither the upstream nor the error itself
    provides one. *)
Theorem failure_response_is_never_blank (W : World) (req : Request)
  (e : Js.value) (st : State) :
  is_chat req = true ->
  authorized W req ->
  chat_try W req initial = (Js.Throw e, st) ->
  e <> Js.undefined -> e <> Js.null ->
  (Js.truthy (relayed_status e) = true -> http_status (relayed_status e)) ->
  Js.truthy (statusCode (response_to W req)) = true /\
  error_field "code" (sent (response_to W req)) = statusCode (response_to W req) /\
  Js.truthy (error_field "message" (sent (response_to W req))) = true /\
  (Js.truthy (Js.optget e "message") = false ->
   Js.truthy
     (Js.optget (Js.optget (Js.optget (Js.optget e "response") "data") "error")
        "message") = false ->
   error_field "message" (sent (response_to W req)) = Js.str "Internal server error").
Proof.
  intros Hc Hok Htry Hu Hn _. unfold response_to.
  rewrite (chat_serve W req Hc Hok). unfold chat, try_catch. rewrite Htry.
  rewrite (chat_catch_answers e st Hu Hn).
  cbn [snd res statusCode sent error_field chat_error].
  cbn [Js.optget Js.lookup String.eqb Ascii.eqb Bool.eqb].
  split; [apply truthy_or_default; reflexivity|].
  split; [reflexivity|].
  split; [apply truthy_or_default; reflexivity|].
  intros Hlocal Hup. rewrite (or_falsy _ _ Hup), (or_falsy _ _ Hlocal). reflexivity.
Qed.

Lemma failure_response_is_never_blank_witness :
  statusCode (response_to blank_error_world hi_request) = Js.number 500 /\
  error_field "message" (sent (response_to blank_error_world hi_request)) =
  Js.str "Internal server error".
Proof.
  split; [reflexivity|].
  apply (failure_response_is_never_blank blank_error_world hi_request (Js.object [])
           (called blank_error_world hi_request initial));
    [reflexivity | exists "s3cret"; split; reflexivity
    | apply chat_try_rejected; reflexivity | discriminate | discriminate
    | discriminate | reflexivity | reflexivity].
Defined.

(** *** Rejections *)

Lemma authenticate_unauthorized (W : World) (req : Request) (next : M unit) :
  path req <> "/health" ->
  ~ authorized W req ->
  authenticate W req next = reject (rejection_text (authorization req)).
Proof.
  intros Hp Hno. unfold authenticate, rejection_text.
  destruct (String.eqb_spec (path req) "/health") as [|_]; [contradiction|].
  destruct (authorization req) as [h|] eqn:Hh; [|reflexivity].
  destruct (String.eqb h "" || negb (JsString.startsWith h "Bearer ")) eqn:Hb;
    [reflexivity|].
  destruct (Js.strict_eq_str (JsString.replace "Bearer " "" h) (PROXY_SECRET W)) eqn:Heq;
    [|reflexivity].
  exfalso. apply Hno.
  apply orb_false_iff in Hb. destruct Hb as [_ Hb].
  apply negb_false_iff in Hb. unfold JsString.startsWith in Hb.
  apply prefix_split in Hb.
  remember (JsString.drop (String.length "Bearer ") h) as token eqn:Ht.
  exists token. split; [congruence|].
  rewrite Hb in Heq. rewrite (replace_prefix "Bearer " "" token) in Heq.
  unfold Js.strict_eq_str in Heq.
  destruct (PROXY_SECRET W) as [s|]; [|discriminate].
  apply String.eqb_eq in Heq. cbn [String.append] in Heq. congruence.
Qed.

(** The two texts of a rejection.  On a path other than [/health], a
    request (other than an OPTIONS request, which [cors()] answers) without
    an Authorization header, or with one that does not start with
    ['Bearer '], is told ["Unauthorized: Missing API key"]; one whose header
    starts with ['Bearer '] but does not hold the secret is told
    ["Unauthorized: Invalid API key"]. *)
Theorem rejection_messages (W : World) (req : Request) :
  is_preflight req = false ->
  path req <> "/health" ->
  ~ authorized W req ->
  (authorization req = None \/
   (exists h, authorization req = Some h /\ JsString.startsWith h "Bearer " = false) ->
   error_field "message" (sent (response_to W req)) =
   Js.str "Unauthorized: Missing API key") /\
  (forall token, authorization req = Some ("Bearer " ++ token) ->
   error_field "message" (sent (response_to W req)) =
   Js.str "Unauthorized: Invalid API key").
Proof.
  intros Hpre Hp Hno. unfold response_to, serve. rewrite (app_not_preflight W req Hpre).
  rewrite (authenticate_unauthorized W req _ Hp Hno). rewrite reject_run.
  cbn [snd res sent error_field auth_error Js.optget Js.lookup String.eqb Ascii.eqb
       Bool.eqb].
  unfold rejection_text. split.
  - intros [-> | [h [-> Hh]]]; [reflexivity|].
    rewrite Hh. rewrite orb_true_r. reflexivity.
  - intros token ->. unfold JsString.startsWith.
    rewrite (prefix_app "Bearer " token). reflexivity.
Qed.

Lemma rejection_messages_witness :
  error_field "message"
    (sent (response_to (demo_world no_upstream)
             (request "GET" "/v1/models" (Some "Token s3cret") []))) =
    Js.str "Unauthorized: Missing API key" /\
  error_field "message"
    (sent (response_to (demo_world no_upstream)
             (request "GET" "/v1/models" (Some "Bearer guess") []))) =
    Js.str "Unauthorized: Invalid API key".
Proof.
  split.
  - refine (proj1 (rejection_messages (demo_world no_upstream)
                     (request "GET" "/v1/models" (Some "Token s3cret") []) eq_refl _ _) _).
    + discriminate.
    + intros [token [H _]]. discriminate H.
    + right. eexists. split; reflexivity.
  - refine (proj2 (rejection_messages (demo_world no_upstream)
                     (request "GET" "/v1/models" (Some "Bearer guess") []) eq_refl _ _)
              "guess" eq_refl).
    + discriminate.
    + intros [token [H1 H2]]. injection H1 as <-. discriminate H2.
Defined.

(** An unauthenticated client learns nothing about the routes: on paths
    other than [/health], two requests, neither of them an OPTIONS request
    (which [cors()] answers), that carry the same Authorization header
    without holding the secret are answered identically whatever their
    methods, paths and bodies, and no route handler runs. *)
Theorem rejection_ignores_the_route (W : World) (req1 req2 : Request) :
  is_preflight req1 = false ->
  is_preflight req2 = false ->
  path req1 <> "/health" ->
  path req2 <> "/health" ->
  authorization req1 = authorization req2 ->
  ~ authorized W req1 ->
  serve W req1 = serve W req2.
Proof.
  intros Hpre1 Hpre2 Hp1 Hp2 Hauth Hno.
  assert (Hno2 : ~ authorized W req2).
  { intros [token [Hh Hs]]. apply Hno. exists token. split; congruence. }
  unfold serve.
  rewrite (app_not_preflight W req1 Hpre1), (app_not_preflight W req2 Hpre2).
  rewrite (authenticate_unauthorized W req1 _ Hp1 Hno).
  rewrite (authenticate_unauthorized W req2 _ Hp2 Hno2).
  rewrite Hauth. reflexivity.
Qed.

Lemma rejection_ignores_the_route_witness :
  serve (demo_world no_upstream)
    (request "POST" "/v1/chat/completions" (Some "Bearer guess")
       [("stream", Js.boolean true)]) =
  serve (demo_world no_upstream) (request "DELETE" "/no/such/route" (Some "Bearer guess") []).
Proof.
  apply (rejection_ignores_the_route (demo_world no_upstream)
           (request "POST" "/v1/chat/completions" (Some "Bearer guess")
              [("stream", Js.boolean true)])
           (request "DELETE" "/no/such/route" (Some "Bearer guess") []));
    [reflexivity | reflexivity | discriminate | discriminate | reflexivity |].
  intros [token [H1 H2]]. injection H1 as <-. discriminate H2.
Defined.

(** *** The startup log *)

(** The startup log and the middleware disagree.  When the log reads
    ["Authentication: DISABLED"] (the secret is unset or empty), the bearer
    check is still in force: on a path other than [/health], every request
    that reaches the middleware (any but an OPTIONS request, which [cors()]
    answers) is answered 401, save one whose header is exactly ['Bearer ']
    with nothing after it. *)
Theorem disabled_log_still_enforces (W : World) (req : Request) :
  In "Authentication: DISABLED" (listening W) ->
  is_preflight req = false ->
  path req <> "/health" ->
  authorization req <> Some "Bearer " ->
  is_authentication_error (response_to W req).
Proof.
  intros Hlog Hpre Hp Hh.
  assert (Hsecret : PROXY_SECRET W = None \/ PROXY_SECRET W = Some "").
  { unfold listening in Hlog. destruct Hlog as [H | [H | []]]; [discriminate H|].
    destruct (PROXY_SECRET W) as [s|]; [|left; reflexivity].
    destruct (String.eqb_spec s "") as [E|_]; [right; rewrite E; reflexivity|].
    discriminate H. }
  unfold response_to, serve. rewrite (app_not_preflight W req Hpre).
  rewrite (authenticate_unauthorized W req (routes W req) Hp).
  - apply reject_is_authentication_error.
  - intros [token [Hheader Hs]]. apply Hh.
    destruct Hsecret as [Hn | He]; [congruence|].
    rewrite He in Hs. injection Hs as <-. exact Hheader.
Qed.

Lemma disabled_log_still_enforces_witness :
  is_authentication_error
    (response_to empty_secret_world (request "GET" "/v1/models" (Some "Bearer x") [])) /\
  is_authentication_error
    (response_to unconfigured_world (request "GET" "/v1/models" None [])).
Proof.
  split.
  - apply (disabled_log_still_enforces empty_secret_world
             (request "GET" "/v1/models" (Some "Bearer x") []));
      [right; left; reflexivity | reflexivity | discriminate | discriminate].
  - apply (disabled_log_still_enforces unconfigured_world
             (request "GET" "/v1/models" None []));
      [right; left; reflexivity | reflexivity | discriminate | discriminate].
Defined.

(** *** What is not passed on *)

(** Only five fields travel upstream.  The payload of an outbound call
    holds [model], [messages], [temperature], [max_tokens] and [stream] and
    nothing else: any other field of the inbound body ([top_p], [stop],
    [tools], ...) is dropped. *)
Theorem other_fields_are_not_forwarded (W : World) (req : Request) (c : AxiosCall)
  (field : string) :
  In c (calls_of W req) ->
  ~ In field payload_fields ->
  Js.optget (data c) field = Js.undefined.
Proof.
  intros Hin Hno. rewrite (calls_are_chat_calls W req c Hin).
  unfold chat_call, nimRequest. cbn [data Js.optget Js.lookup].
  repeat match goal with
         | |- context [String.eqb field ?k] =>
             destruct (String.eqb_spec field k) as [E|_];
             [exfalso; apply Hno; rewrite E; cbn; tauto|]
         end.
  reflexivity.
Qed.

Lemma other_fields_are_not_forwarded_witness :
  Js.optget (data (chat_call (demo_world no_upstream) rich_request)) "top_p" =
    Js.undefined /\
  Js.optget (data (chat_call (demo_world no_upstream) rich_request)) "tools" =
    Js.undefined.
Proof.
  split.
  - apply (other_fields_are_not_forwarded (demo_world no_upstream) rich_request
             (chat_call (demo_world no_upstream) rich_request) "top_p");
      [left; reflexivity|].
    cbn. intros [H|[H|[H|[H|[H|[]]]]]]; discriminate H.
  - apply (other_fields_are_not_forwarded (demo_world no_upstream) rich_request
             (chat_call (demo_world no_upstream) rich_request) "tools");
      [left; reflexivity|].
    cbn. intros [H|[H|[H|[H|[H|[]]]]]]; discriminate H.
Defined.

(** A choice that is reshaped at all is reshaped to [index], [message]
    ([role] and [content]) and [finish_reason]. *)
Lemma translate_choice_shape (W : World) (choice translated : Js.value) :
  translate_choice W choice = Js.Normal translated -> mirrors choice translated.
Proof.
  unfold translate_choice, mirrors, reshaped.
  destruct (Js.get choice "message") as [message|e1] eqn:E1; cbn [Js.bind]; [|discriminate].
  assert (Hm : Js.optget choice "message" = message).
  { destruct choice; simpl in E1; try discriminate; injection E1 as <-; reflexivity. }
  rewrite Hm.
  match goal with
  | |- Js.bind ?c _ = _ -> _ => destruct c as [content|e2]; cbn [Js.bind]
  end; [|discriminate].
  destruct (Js.get message "role") as [role|e3] eqn:E3; cbn [Js.bind]; [|discriminate].
  assert (Hr : Js.optget message "role" = role).
  { destruct message; simpl in E3; try discriminate; injection E3 as <-; reflexivity. }
  intros H. injection H as <-. exists content. rewrite Hr. reflexivity.
Qed.

Lemma mapM_mirrors (W : World) (l ts : list Js.value) :
  mapM (translate_choice W) l = Js.Normal ts -> Forall2 mirrors l ts.
Proof.
  revert ts. induction l as [|choice l IH]; intros ts; cbn [mapM].
  - intros H. injection H as <-. constructor.
  - destruct (translate_choice W choice) as [t|e] eqn:Et; cbn [Js.bind]; [|discriminate].
    destruct (mapM (translate_choice W) l) as [ts'|e]; cbn [Js.bind]; [|discriminate].
    intros H. injection H as <-.
    constructor; [apply (translate_choice_shape W _ _ Et) | apply IH; reflexivity].
Qed.

(** A completion envelope mirrors the upstream choices.  When a
    non-streaming chat request is answered with a completion envelope, the
    upstream [data.choices] was an array and the envelope holds one choice
    per upstream choice, in the same order, each keeping the [index],
    [finish_reason] and [role] of its source and holding nothing else but
    the content: other upstream fields ([tool_calls], [logprobs], ...) are
    not passed on. *)
Theorem envelope_mirrors_upstream_choices (W : World) (req : Request)
  (response env : Js.value) :
  is_chat req = true ->
  authorized W req ->
  Js.truthy (Js.lookup "stream" (body req)) = false ->
  upstream W (chat_call W req) = Fulfilled response ->
  sent (response_to W req) = JsonBody env ->
  Js.optget env "object" = Js.str "chat.completion" ->
  exists choices translated usage,
    Js.optget (Js.optget response "data") "choices" = Js.array choices /\
    env = envelope W req translated usage /\
    Forall2 mirrors choices translated.
Proof.
  intros Hc Hok Hstream Hup. unfold response_to.
  rewrite (chat_fulfilled_json W req response Hc Hok Hstream Hup).
  unfold envelope_at, envelope.
  destruct (Js.get response "data") as [d|e1] eqn:E1; cbn [Js.bind].
  - assert (Hd : Js.optget response "data" = d).
    { destruct response; simpl in E1; try discriminate; injection E1 as <-; reflexivity. }
    rewrite Hd.
    destruct (Js.get d "choices") as [cs|e2] eqn:E2; cbn [Js.bind].
    + assert (Hcs : Js.optget d "choices" = cs).
      { destruct d; simpl in E2; try discriminate; injection E2 as <-; reflexivity. }
      rewrite Hcs.
      destruct cs as [| | | | |l| |]; cbn [array_map Js.bind];
        try (unfold Js.TypeError; rewrite chat_catch_run; cbn [snd res sent];
             intros Hs; injection Hs as <-; discriminate).
      destruct (mapM (translate_choice W) l) as [ts|e3] eqn:E3; cbn [Js.bind].
      * cbn [snd res sent]. intros Hs _. injection Hs as <-.
        exists l, ts. eexists. split; [reflexivity|]. split; [reflexivity|].
        apply (mapM_mirrors W l ts E3).
      * destruct (mapM_throws (translate_choice W) is_TypeError
                    (translate_choice_throws W) _ _ E3) as [message [_ ->]].
        unfold Js.TypeError. rewrite chat_catch_run. cbn [snd res sent].
        intros Hs; injection Hs as <-; discriminate.
    + destruct (get_throws _ _ _ E2) as [message [_ ->]].
      unfold Js.TypeError. rewrite chat_catch_run. cbn [snd res sent].
      intros Hs; injection Hs as <-; discriminate.
  - destruct (get_throws _ _ _ E1) as [message [_ ->]].
    unfold Js.TypeError. rewrite chat_catch_run. cbn [snd res sent].
    intros Hs; injection Hs as <-; discriminate.
Qed.

Lemma envelope_mirrors_upstream_choices_witness :
  exists choices translated usage,
    Js.optget (Js.optget (Js.object [("status", Js.number 200);
                                     ("data", Js.object [("choices",
                                                          Js.array [tool_choice])])])
                 "data") "choices" = Js.array choices /\
    envelope (json_world (Js.object [("choices", Js.array [tool_choice])])) hi_request
      [reshaped tool_choice (Js.str "")] zero_usage =
    envelope (json_world (Js.object [("choices", Js.array [tool_choice])])) hi_request
      translated usage /\
    Forall2 mirrors choices translated.
Proof.
  apply (envelope_mirrors_upstream_choices
           (json_world (Js.object [("choices", Js.array [tool_choice])])) hi_request
           (Js.object [("status", Js.number 200);
                       ("data", Js.object [("choices", Js.array [tool_choice])])])
           (envelope (json_world (Js.object [("choices", Js.array [tool_choice])]))
              hi_request [reshaped tool_choice (Js.str "")] zero_usage));
    [reflexivity | exists "s3cret"; split; reflexivity | reflexivity | reflexivity
    | reflexivity | reflexivity].
Defined.

(** *** Headers *)

Lemma chat_catch_headers (e : Js.value) (st : State) :
  headers (res (snd (chat_catch e st))) = headers (res st).
Proof. destruct e; reflexivity. Qed.

(** The handler touches the response headers in one place only: a response
    has headers set by the application only if the request was an
    authenticated chat request with a truthy [stream] whose outbound call
    was fulfilled, and then they are the three event-stream headers.  A
    non-streaming client is never handed an event stream. *)
Theorem headers_only_when_streaming (W : World) (req : Request) :
  headers (response_to W req) <> [] ->
  headers (response_to W req) = event_stream_headers /\
  is_chat req = true /\
  authorized W req /\
  Js.truthy (Js.lookup "stream" (body req)) = true /\
  exists response, upstream W (chat_call W req) = Fulfilled response.
Proof.
  unfold response_to.
  destruct (is_preflight req) eqn:Hpre;
    [rewrite (serve_preflight W req Hpre); intros H; exfalso; apply H; reflexivity|].
  unfold serve. rewrite (app_not_preflight W req Hpre).
  assert (Hchat : headers (res (snd (chat W req initial))) <> [] ->
                  headers (res (snd (chat W req initial))) = event_stream_headers /\
                  Js.truthy (Js.lookup "stream" (body req)) = true /\
                  exists response, upstream W (chat_call W req) = Fulfilled response).
  { unfold chat, try_catch, chat_try. unfold bind at 1. unfold axios_post.
    destruct (upstream W (chat_call W req)) as [response|e].
    - destruct (Js.truthy (Js.lookup "stream" (body req))).
      + intros _. split; [|split; [reflexivity | exists response; reflexivity]].
        unfold bind, res_setHeader, with_res, lift. cbn [res statusCode headers sent initial].
        destruct (Js.get response "data") as [d|e1].
        * destruct d; cbn [pipe throw with_res]; try (rewrite chat_catch_headers);
            reflexivity.
        * rewrite chat_catch_headers. reflexivity.
      + unfold bind. rewrite openaiResponse_run.
        destruct (envelope_at W (Js.lookup "model" (body req)) response _ _).
        * intros H. exfalso. apply H. reflexivity.
        * rewrite chat_catch_headers. intros H. exfalso. apply H. reflexivity.
    - rewrite chat_catch_headers. intros H. exfalso. apply H. reflexivity. }
  assert (Hroutes : headers (res (snd (routes W req initial))) <> [] ->
                    headers (res (snd (routes W req initial))) = event_stream_headers /\
                    is_chat req = true /\
                    Js.truthy (Js.lookup "stream" (body req)) = true /\
                    exists response, upstream W (chat_call W req) = Fulfilled response).
  { unfold routes.
    destruct (is_health req); [intros H; exfalso; apply H; reflexivity|].
    destruct (is_models req); [intros H; exfalso; apply H; reflexivity|].
    destruct (is_chat req); [|intros H; exfalso; apply H; reflexivity].
    intros H. destruct (Hchat H) as [H1 [H2 H3]]. repeat split; assumption. }
  destruct (String.eqb_spec (path req) "/health") as [Hp|Hp].
  - rewrite (authenticate_exempt W req _ Hp). intros H.
    destruct (Hroutes H) as [_ [Hc _]].
    rewrite (health_path_is_not_chat req Hp) in Hc. discriminate.
  - destruct (authenticate_cases W req (routes W req) Hp) as [[message ->]|Hok].
    + rewrite reject_run. intros H. exfalso. apply H. reflexivity.
    + rewrite (authenticate_pass W req _ Hok). intros H.
      destruct (Hroutes H) as [H1 [H2 [H3 H4]]]. repeat split; assumption.
Qed.

Lemma headers_only_when_streaming_witness :
  headers (response_to streaming_world streaming_request) = event_stream_headers /\
  Js.truthy (Js.lookup "stream" (body streaming_request)) = true.
Proof.
  destruct (headers_only_when_streaming streaming_world streaming_request)
    as [H1 [_ [_ [H2 _]]]]; [discriminate|].
  split; assumption.
Defined.

End Properties.
